(** * boot.py: swipe navigation and multitap text entry

    A shallow embedding of the touch handling of [boot.py]: the gesture
    classifier [detect_swipe], the submenu table [get_max_submenus], the
    multitap keyboard [handle_keyboard_touch] and one iteration of the main
    loop.  Python integers are [Z] (with [%] as [Z.modulo], which like
    Python's takes the sign of the divisor), Python strings are [string],
    [None]-able values are [option], the module-level globals are one record
    threaded through every function, and the layout dictionaries are
    association lists, because [list(keys.keys())] depends on their
    insertion order.  The second part of the file adds the touch driver
    [CST816S.get_touch], [center_x], the drawing of the search screen,
    [draw_screen], [connect_wifi], and the weather codes of [get_weather]
    and [draw_weather_icon]. *)

From Stdlib Require Import ZArith String Ascii List Bool Lia.
Import ListNotations.

Open Scope string_scope.
Open Scope list_scope.
Open Scope Z_scope.

(** ** Data model *)

(** The dictionary returned by [CST816S.get_touch]: keys ['x'], ['y'] and
    ['points']. *)
Record touch_data := mk_touch {
  touch_x : Z;
  touch_y : Z;
  touch_points : Z
}.

(** The module-level globals read or written by the two input handlers. *)
Record globals := mk_globals {
  main_menu : Z;
  sub_menu : Z;
  last_touch_x : option Z;
  last_touch_y : option Z;
  search_text : string;
  keyboard_mode : string;
  multitap_key : option string;
  multitap_count : Z;
  multitap_time : Z
}.

(** The values the module assigns at import time. *)
Definition initial_globals : globals :=
  {| main_menu := 0; sub_menu := 0;
     last_touch_x := None; last_touch_y := None;
     search_text := ""; keyboard_mode := "abc";
     multitap_key := None; multitap_count := 0; multitap_time := 0 |}.

(** What the program does to the outside world, in program order. *)
Inductive effect :=
| GetTouch (r : option touch_data)   (* touch.get_touch() and its result *)
| DisplayFill                        (* display.fill(BLACK) *)
| DrawSearchScreen                   (* draw_search_screen() *)
| DrawScreen (main sub : Z)          (* draw_screen() at this menu position *)
| GetWeather                         (* get_weather() *)
| GetCrypto                          (* get_crypto() *)
| SleepMs (ms : Z).                  (* time.sleep_ms(ms); time.sleep(0.1) is 100 *)

(** Exceptions the keyboard code could raise. *)
Inductive exn := KeyError | IndexError | ZeroDivisionError.

Inductive result (A : Type) :=
| Ok (a : A)
| Raise (e : exn).
Arguments Ok {A} a.
Arguments Raise {A} e.

Definition bind {A B} (m : result A) (k : A -> result B) : result B :=
  match m with
  | Ok a => k a
  | Raise e => Raise e
  end.

Notation "x <- m ;; k" := (bind m (fun x => k))
  (at level 61, m at next level, right associativity).

(** ** Menu model *)

Definition get_max_submenus (menu : Z) : Z :=
  if menu =? 1 then 2 else 1.

(** ** Swipe detection *)

Definition is_vertical_swipe (delta_x delta_y : Z) : bool :=
  (Z.abs delta_y >? 50) && (Z.abs delta_y >? Z.abs delta_x).

Definition is_horizontal_swipe (delta_x delta_y : Z) : bool :=
  (Z.abs delta_x >? 40) && (Z.abs delta_x >? Z.abs delta_y).

Definition set_last_touch (lx ly : option Z) (g : globals) : globals :=
  {| main_menu := main_menu g; sub_menu := sub_menu g;
     last_touch_x := lx; last_touch_y := ly;
     search_text := search_text g; keyboard_mode := keyboard_mode g;
     multitap_key := multitap_key g; multitap_count := multitap_count g;
     multitap_time := multitap_time g |}.

Definition set_menu (main sub : Z) (g : globals) : globals :=
  {| main_menu := main; sub_menu := sub;
     last_touch_x := last_touch_x g; last_touch_y := last_touch_y g;
     search_text := search_text g; keyboard_mode := keyboard_mode g;
     multitap_key := multitap_key g; multitap_count := multitap_count g;
     multitap_time := multitap_time g |}.

(** [detect_swipe]: the new globals and the sleeps performed. *)
Definition detect_swipe (td : option touch_data) (g : globals)
  : globals * list effect :=
  match td with
  | None => (set_last_touch None None g, [])
  | Some t =>
    let x := touch_x t in
    let y := touch_y t in
    match last_touch_x g, last_touch_y g with
    | Some lx, Some ly =>
      let delta_x := x - lx in
      let delta_y := y - ly in
      if is_vertical_swipe delta_x delta_y then
        let main :=
          if delta_y >? 0 then (main_menu g + 1) mod 5
          else (main_menu g - 1) mod 5 in
        (set_last_touch None None (set_menu main 0 g), [SleepMs 300])
      else if is_horizontal_swipe delta_x delta_y then
        let max_subs := get_max_submenus (main_menu g) in
        let sub :=
          if max_subs >? 1 then
            if delta_x <? 0 then (sub_menu g + 1) mod max_subs
            else (sub_menu g - 1) mod max_subs
          else sub_menu g in
        (set_last_touch None None (set_menu (main_menu g) sub g),
         [SleepMs 300])
      else (set_last_touch (Some x) (Some y) g, [])
    | _, _ => (set_last_touch (Some x) (Some y) g, [])
    end
  end.

(** ** Multitap keyboard *)

(** A layout dictionary, in insertion order. *)
Definition layout := list (string * list string).

Definition multitap_letters : layout :=
  [ ("abc", ["a"; "b"; "c"]);
    ("def", ["d"; "e"; "f"]);
    ("ghi", ["g"; "h"; "i"]);
    ("jkl", ["j"; "k"; "l"]);
    ("mno", ["m"; "n"; "o"]);
    ("pqrs", ["p"; "q"; "r"; "s"]);
    ("tuv", ["t"; "u"; "v"]);
    ("wxyz", ["w"; "x"; "y"; "z"]);
    ("SPACE", [" "]) ].

Definition multitap_letters_upper : layout :=
  [ ("ABC", ["A"; "B"; "C"]);
    ("DEF", ["D"; "E"; "F"]);
    ("GHI", ["G"; "H"; "I"]);
    ("JKL", ["J"; "K"; "L"]);
    ("MNO", ["M"; "N"; "O"]);
    ("PQRS", ["P"; "Q"; "R"; "S"]);
    ("TUV", ["T"; "U"; "V"]);
    ("WXYZ", ["W"; "X"; "Y"; "Z"]);
    ("SPACE", [" "]) ].

Definition multitap_numbers : layout :=
  [ ("1", ["1"]); ("2", ["2"]); ("3", ["3"]);
    ("4", ["4"]); ("5", ["5"]); ("6", ["6"]);
    ("7", ["7"]); ("8", ["8"]); ("9", ["9"]);
    ("0", ["0"]); (".", ["."]); ("@", ["@"]) ].

(** [keys.keys()] *)
Definition dict_keys (keys : layout) : list string := map fst keys.

(** [keys[k]] *)
Fixpoint dict_get (keys : layout) (k : string) : result (list string) :=
  match keys with
  | [] => Raise KeyError
  | (k', v) :: rest => if String.eqb k' k then Ok v else dict_get rest k
  end.

(** [len(l)] *)
Definition len {A} (l : list A) : Z := Z.of_nat (List.length l).

(** [l[i]], a negative index counting from the end. *)
Definition list_index {A} (l : list A) (i : Z) : result A :=
  let j := if i <? 0 then i + len l else i in
  if j <? 0 then Raise IndexError
  else match nth_error l (Z.to_nat j) with
       | Some a => Ok a
       | None => Raise IndexError
       end.

(** [len(s)] on a string *)
Definition str_len (s : string) : Z := Z.of_nat (String.length s).

(** [a % b] *)
Definition py_mod (a b : Z) : result Z :=
  if b =? 0 then Raise ZeroDivisionError else Ok (a mod b).

(** [s[:-1]] *)
Fixpoint drop_last (s : string) : string :=
  match s with
  | EmptyString => EmptyString
  | String c rest =>
    match rest with
    | EmptyString => EmptyString
    | String _ _ => String c (drop_last rest)
    end
  end.

(** [multitap_key == key_name], the left side possibly [None]. *)
Definition key_eqb (k : option string) (key_name : string) : bool :=
  match k with
  | Some k' => String.eqb k' key_name
  | None => false
  end.

Definition set_search_text (t : string) (g : globals) : globals :=
  {| main_menu := main_menu g; sub_menu := sub_menu g;
     last_touch_x := last_touch_x g; last_touch_y := last_touch_y g;
     search_text := t; keyboard_mode := keyboard_mode g;
     multitap_key := multitap_key g; multitap_count := multitap_count g;
     multitap_time := multitap_time g |}.

Definition set_keyboard_mode (m : string) (g : globals) : globals :=
  {| main_menu := main_menu g; sub_menu := sub_menu g;
     last_touch_x := last_touch_x g; last_touch_y := last_touch_y g;
     search_text := search_text g; keyboard_mode := m;
     multitap_key := multitap_key g; multitap_count := multitap_count g;
     multitap_time := multitap_time g |}.

Definition set_multitap_key (k : option string) (g : globals) : globals :=
  {| main_menu := main_menu g; sub_menu := sub_menu g;
     last_touch_x := last_touch_x g; last_touch_y := last_touch_y g;
     search_text := search_text g; keyboard_mode := keyboard_mode g;
     multitap_key := k; multitap_count := multitap_count g;
     multitap_time := multitap_time g |}.

Definition set_multitap_count (n : Z) (g : globals) : globals :=
  {| main_menu := main_menu g; sub_menu := sub_menu g;
     last_touch_x := last_touch_x g; last_touch_y := last_touch_y g;
     search_text := search_text g; keyboard_mode := keyboard_mode g;
     multitap_key := multitap_key g; multitap_count := n;
     multitap_time := multitap_time g |}.

Definition set_multitap_time (t : Z) (g : globals) : globals :=
  {| main_menu := main_menu g; sub_menu := sub_menu g;
     last_touch_x := last_touch_x g; last_touch_y := last_touch_y g;
     search_text := search_text g; keyboard_mode := keyboard_mode g;
     multitap_key := multitap_key g; multitap_count := multitap_count g;
     multitap_time := t |}.

(** The layout selected by [keyboard_mode]. *)
Definition current_keys (g : globals) : layout :=
  if String.eqb (keyboard_mode g) "abc" then multitap_letters
  else if String.eqb (keyboard_mode g) "ABC" then multitap_letters_upper
  else multitap_numbers.

Definition row_of (y : Z) : Z :=
  if (50 <=? y) && (y <=? 80) then 0
  else if (90 <=? y) && (y <=? 120) then 1
  else if (130 <=? y) && (y <=? 160) then 2
  else if (170 <=? y) && (y <=? 200) then 3
  else -1.

Definition col_of (x : Z) : Z :=
  if (20 <=? x) && (x <=? 80) then 0
  else if (90 <=? x) && (x <=? 150) then 1
  else if (160 <=? x) && (x <=? 220) then 2
  else -1.

(** [if len(search_text) > 0: search_text = search_text[:-1]] *)
Definition remove_last_char (g : globals) : globals :=
  if str_len (search_text g) >? 0
  then set_search_text (drop_last (search_text g)) g
  else g.

(** [handle_keyboard_touch(x, y)], with the reading of [time.ticks_ms()]
    passed in as [current_time]. *)
Definition handle_keyboard_touch (x y current_time : Z) (g : globals)
  : result (bool * globals) :=
  let keys := current_keys g in
  let key_list := dict_keys keys in
  let row := row_of y in
  let col := col_of x in
  if (row >=? 0) && (col >=? 0) then
    let key_idx := row * 3 + col in
    if key_idx =? 9 then
      Ok (true, set_multitap_key None (remove_last_char g))
    else if key_idx =? 10 then
      let mode :=
        if String.eqb (keyboard_mode g) "abc" then "ABC"
        else if String.eqb (keyboard_mode g) "ABC" then "123"
        else "abc" in
      Ok (true, set_multitap_key None (set_keyboard_mode mode g))
    else if key_idx =? 11 then
      Ok (true, set_multitap_key None g)
    else if key_idx <? len key_list then
      key_name <- list_index key_list key_idx ;;
      g1 <- (if key_eqb (multitap_key g) key_name
                && (current_time - multitap_time g <? 1000)
             then
               cands <- dict_get keys key_name ;;
               n <- py_mod (multitap_count g + 1) (len cands) ;;
               Ok (remove_last_char (set_multitap_count n g))
             else
               Ok (set_multitap_count 0
                     (set_multitap_key (Some key_name) g))) ;;
      cands <- dict_get keys key_name ;;
      c <- list_index cands (multitap_count g1) ;;
      Ok (true,
          set_multitap_time current_time
            (set_search_text (search_text g1 ++ c)%string g1))
    else Ok (false, g)
  else Ok (false, g).

(** ** Main loop *)

(** The loop's own variables next to the globals. *)
Record loop_state := mk_loop {
  globs : globals;
  counter : Z;
  last_main : Z;
  last_sub : Z
}.

Definition initial_loop_state : loop_state :=
  {| globs := initial_globals; counter := 0; last_main := -1; last_sub := -1 |}.

(** What the environment supplies during one iteration: the result of
    [touch.get_touch()], the reading of [time.ticks_ms()], and whether
    [wlan and wlan.isconnected()] holds where the weather refresh tests it
    and where the crypto refresh tests it. *)
Record tick_input := mk_input {
  polled : option touch_data;
  ticks_ms : Z;
  wlan_connected_weather : bool;
  wlan_connected_crypto : bool
}.

(** The [if touch_enabled:] block. *)
Definition poll_touch (touch_enabled : bool) (inp : tick_input) (g : globals)
  : result (globals * list effect) :=
  if touch_enabled then
    let td := polled inp in
    r <- match td with
         | Some t =>
           if main_menu g =? 3 then
             kb <- handle_keyboard_touch (touch_x t) (touch_y t)
                     (ticks_ms inp) g ;;
             Ok (snd kb,
                 if fst kb then [DisplayFill; DrawSearchScreen] else [])
           else Ok (g, [])
         | None => Ok (g, [])
         end ;;
    let sw := detect_swipe td (fst r) in
    Ok (fst sw, GetTouch td :: snd r ++ snd sw)
  else Ok (g, []).

(** The periodic weather and crypto refresh, tested on the value [counter]
    has during the iteration. *)
Definition refresh_data (inp : tick_input) (counter : Z) : list effect :=
  (if (counter mod 6000 =? 0) && (counter >? 0)
   then if wlan_connected_weather inp then [GetWeather] else []
   else [])
  ++
  (if (counter mod 3000 =? 0) && (counter >? 0)
   then if wlan_connected_crypto inp then [GetCrypto] else []
   else []).

(** One iteration of [while True:]. *)
Definition tick (touch_enabled : bool) (inp : tick_input) (ls : loop_state)
  : result (loop_state * list effect) :=
  r <- poll_touch touch_enabled inp (globs ls) ;;
  let g := fst r in
  let e_net := refresh_data inp (counter ls) in
  let changed :=
    negb (main_menu g =? last_main ls) || negb (sub_menu g =? last_sub ls) in
  let redraw :=
    changed || ((main_menu g =? 0) && (counter ls mod 10 =? 0)) in
  let ls' :=
    if changed
    then {| globs := g; counter := counter ls + 1;
            last_main := main_menu g; last_sub := sub_menu g |}
    else {| globs := g; counter := counter ls + 1;
            last_main := last_main ls; last_sub := last_sub ls |} in
  Ok (ls',
      snd r ++ e_net
        ++ (if changed then [DisplayFill] else [])
        ++ (if redraw then [DrawScreen (main_menu g) (sub_menu g)] else [])
        ++ [SleepMs 100]).

(** The loop over the inputs of finitely many iterations. *)
Fixpoint run (touch_enabled : bool) (inps : list tick_input) (ls : loop_state)
  : result (loop_state * list effect) :=
  match inps with
  | [] => Ok (ls, [])
  | inp :: rest =>
    r <- tick touch_enabled inp ls ;;
    r' <- run touch_enabled rest (fst r) ;;
    Ok (fst r', snd r ++ snd r')
  end.

(** Virtual time: only sleeping takes time. *)
Definition duration (e : effect) : Z :=
  match e with
  | SleepMs ms => ms
  | _ => 0
  end.

Definition elapsed (es : list effect) : Z :=
  fold_right (fun e acc => duration e + acc) 0 es.

(** Each effect with the instant at which it starts. *)
Fixpoint timeline (t0 : Z) (es : list effect) : list (Z * effect) :=
  match es with
  | [] => []
  | e :: rest => (t0, e) :: timeline (t0 + duration e) rest
  end.

(** Whether [detect_swipe] meets one of its two thresholds. *)
Definition swipe_fires (td : option touch_data) (g : globals) : bool :=
  match td, last_touch_x g, last_touch_y g with
  | Some t, Some lx, Some ly =>
    is_vertical_swipe (touch_x t - lx) (touch_y t - ly)
    || is_horizontal_swipe (touch_x t - lx) (touch_y t - ly)
  | _, _, _ => false
  end.

(** A call of one of the two input handlers. *)
Inductive call :=
| CallDetectSwipe (td : option touch_data)
| CallKeyboard (x y current_time : Z).

Definition do_call (c : call) (g : globals) : result globals :=
  match c with
  | CallDetectSwipe td => Ok (fst (detect_swipe td g))
  | CallKeyboard x y t => r <- handle_keyboard_touch x y t g ;; Ok (snd r)
  end.

(** The globals after each call of a sequence. *)
Fixpoint states_after (cs : list call) (g : globals) : result (list globals) :=
  match cs with
  | [] => Ok []
  | c :: rest =>
    g' <- do_call c g ;;
    gs <- states_after rest g' ;;
    Ok (g' :: gs)
  end.

Definition menu_invariant (g : globals) : Prop :=
  0 <= main_menu g < 5 /\ 0 <= sub_menu g < get_max_submenus (main_menu g).

(** ** Swipe detection: thresholds and transitions *)

Lemma is_vertical_swipe_spec (delta_x delta_y : Z) :
  is_vertical_swipe delta_x delta_y = true <->
  Z.abs delta_y > 50 /\ Z.abs delta_y > Z.abs delta_x.
Proof.
  unfold is_vertical_swipe.
  rewrite andb_true_iff, !Z.gtb_lt. lia.
Qed.

Lemma is_horizontal_swipe_spec (delta_x delta_y : Z) :
  is_horizontal_swipe delta_x delta_y = true <->
  Z.abs delta_x > 40 /\ Z.abs delta_x > Z.abs delta_y.
Proof.
  unfold is_horizontal_swipe.
  rewrite andb_true_iff, !Z.gtb_lt. lia.
Qed.

(** The two thresholds exclude each other. *)
Lemma horizontal_not_vertical (delta_x delta_y : Z) :
  is_horizontal_swipe delta_x delta_y = true ->
  is_vertical_swipe delta_x delta_y = false.
Proof.
  intros H. apply is_horizontal_swipe_spec in H.
  destruct (is_vertical_swipe delta_x delta_y) eqn:V; [|reflexivity].
  apply is_vertical_swipe_spec in V. lia.
Qed.

Lemma get_max_submenus_range (menu : Z) :
  get_max_submenus menu = 1 \/ get_max_submenus menu = 2.
Proof. unfold get_max_submenus. destruct (menu =? 1); auto. Qed.

Lemma detect_swipe_vertical (t : touch_data) (g : globals) (lx ly : Z) :
  last_touch_x g = Some lx ->
  last_touch_y g = Some ly ->
  is_vertical_swipe (touch_x t - lx) (touch_y t - ly) = true ->
  detect_swipe (Some t) g =
    (set_last_touch None None
       (set_menu (if touch_y t - ly >? 0 then (main_menu g + 1) mod 5
                  else (main_menu g - 1) mod 5) 0 g),
     [SleepMs 300]).
Proof.
  intros Hx Hy V. unfold detect_swipe. rewrite Hx, Hy, V. reflexivity.
Qed.

Lemma detect_swipe_horizontal (t : touch_data) (g : globals) (lx ly : Z) :
  last_touch_x g = Some lx ->
  last_touch_y g = Some ly ->
  is_horizontal_swipe (touch_x t - lx) (touch_y t - ly) = true ->
  detect_swipe (Some t) g =
    (set_last_touch None None
       (set_menu (main_menu g)
          (if get_max_submenus (main_menu g) >? 1 then
             if touch_x t - lx <? 0
             then (sub_menu g + 1) mod get_max_submenus (main_menu g)
             else (sub_menu g - 1) mod get_max_submenus (main_menu g)
           else sub_menu g) g),
     [SleepMs 300]).
Proof.
  intros Hx Hy H. unfold detect_swipe.
  rewrite Hx, Hy, (horizontal_not_vertical _ _ H), H. reflexivity.
Qed.

(** A first sample after a lift only records the anchor. *)
Lemma detect_swipe_anchor (t : touch_data) (g : globals) :
  last_touch_x g = None ->
  detect_swipe (Some t) g =
    (set_last_touch (Some (touch_x t)) (Some (touch_y t)) g, []).
Proof. intros Hx. unfold detect_swipe. rewrite Hx. reflexivity. Qed.

(** [detect_swipe] performs the 300 ms sleep exactly when a threshold is
    met. *)
Lemma detect_swipe_effects (td : option touch_data) (g : globals) :
  snd (detect_swipe td g) = if swipe_fires td g then [SleepMs 300] else [].
Proof.
  unfold detect_swipe, swipe_fires.
  destruct td as [t|]; [|reflexivity].
  destruct (last_touch_x g) as [lx|]; [|reflexivity].
  destruct (last_touch_y g) as [ly|]; [|reflexivity].
  destruct (is_vertical_swipe _ _); [reflexivity|].
  destruct (is_horizontal_swipe _ _); reflexivity.
Qed.

(** [detect_swipe] writes only the menu position and the anchor. *)
Lemma detect_swipe_text_frame (td : option touch_data) (g : globals) :
  let g' := fst (detect_swipe td g) in
  search_text g' = search_text g /\
  keyboard_mode g' = keyboard_mode g /\
  multitap_key g' = multitap_key g /\
  multitap_count g' = multitap_count g /\
  multitap_time g' = multitap_time g.
Proof.
  unfold detect_swipe.
  destruct td as [t|]; [|cbn; auto].
  destruct (last_touch_x g) as [lx|]; [|cbn; auto].
  destruct (last_touch_y g) as [ly|]; [|cbn; auto].
  destruct (is_vertical_swipe _ _); [cbn; auto|].
  destruct (is_horizontal_swipe _ _); cbn; auto.
Qed.

Lemma detect_swipe_invariant (td : option touch_data) (g : globals) :
  menu_invariant g -> menu_invariant (fst (detect_swipe td g)).
Proof.
  unfold menu_invariant, detect_swipe. intros [Hm Hs].
  destruct td as [t|]; [|cbn; auto].
  destruct (last_touch_x g) as [lx|]; [|cbn; auto].
  destruct (last_touch_y g) as [ly|]; [|cbn; auto].
  destruct (is_vertical_swipe _ _).
  - cbn. split.
    + destruct (_ >? 0); apply Z.mod_pos_bound; lia.
    + destruct (get_max_submenus_range
                  (if touch_y t - ly >? 0 then (main_menu g + 1) mod 5
                   else (main_menu g - 1) mod 5)) as [E|E];
        rewrite E; lia.
  - destruct (is_horizontal_swipe _ _); [|cbn; auto].
    cbn. split; [exact Hm|].
    destruct (get_max_submenus (main_menu g) >? 1) eqn:M; [|exact Hs].
    apply Z.gtb_lt in M.
    destruct (_ <? 0); apply Z.mod_pos_bound; lia.
Qed.

(** ** Keyboard: the grid *)

Lemma row_of_cases (y : Z) :
  (row_of y = -1 /\
     ~ (50 <= y <= 80) /\ ~ (90 <= y <= 120) /\
     ~ (130 <= y <= 160) /\ ~ (170 <= y <= 200)) \/
  (row_of y = 0 /\ 50 <= y <= 80) \/
  (row_of y = 1 /\ 90 <= y <= 120) \/
  (row_of y = 2 /\ 130 <= y <= 160) \/
  (row_of y = 3 /\ 170 <= y <= 200).
Proof.
  unfold row_of.
  repeat match goal with
         | |- context [?a <=? ?b] => destruct (Z.leb_spec a b)
         end; cbn [andb]; lia.
Qed.

Lemma col_of_cases (x : Z) :
  (col_of x = -1 /\
     ~ (20 <= x <= 80) /\ ~ (90 <= x <= 150) /\ ~ (160 <= x <= 220)) \/
  (col_of x = 0 /\ 20 <= x <= 80) \/
  (col_of x = 1 /\ 90 <= x <= 150) \/
  (col_of x = 2 /\ 160 <= x <= 220).
Proof.
  unfold col_of.
  repeat match goal with
         | |- context [?a <=? ?b] => destruct (Z.leb_spec a b)
         end; cbn [andb]; lia.
Qed.

Lemma row_of_range (y : Z) : -1 <= row_of y <= 3.
Proof. destruct (row_of_cases y) as [H|[H|[H|[H|H]]]]; lia. Qed.

Lemma col_of_range (x : Z) : -1 <= col_of x <= 2.
Proof. destruct (col_of_cases x) as [H|[H|[H|H]]]; lia. Qed.

(** ** Keyboard: list and dictionary access *)

Lemma list_index_in_range {A} (l : list A) (i : Z) :
  0 <= i < len l -> exists a, list_index l i = Ok a.
Proof.
  intros Hi. unfold list_index.
  assert ((i <? 0) = false) as Hlt by (apply Z.ltb_ge; lia).
  rewrite Hlt. cbv zeta. rewrite Hlt.
  destruct (nth_error l (Z.to_nat i)) as [a|] eqn:E.
  - exists a. reflexivity.
  - apply nth_error_None in E. unfold len in Hi. lia.
Qed.

(** Every one of the nine letter cells has a key in each layout, and that
    key has at least one candidate. *)
Lemma layout_cell (g : globals) (idx : Z) :
  0 <= idx <= 8 ->
  exists k cands,
    (idx <? len (dict_keys (current_keys g))) = true /\
    list_index (dict_keys (current_keys g)) idx = Ok k /\
    dict_get (current_keys g) k = Ok cands /\
    0 < len cands.
Proof.
  intros Hi.
  assert (idx = 0 \/ idx = 1 \/ idx = 2 \/ idx = 3 \/ idx = 4 \/
          idx = 5 \/ idx = 6 \/ idx = 7 \/ idx = 8) as Hc by lia.
  unfold current_keys.
  destruct (String.eqb (keyboard_mode g) "abc");
    [|destruct (String.eqb (keyboard_mode g) "ABC")];
    repeat (destruct Hc as [Hc|Hc]; [subst idx; do 2 eexists;
      repeat split; reflexivity|]);
    subst idx; do 2 eexists; repeat split; reflexivity.
Qed.

(** ** Keyboard: what a tap does, cell by cell *)

Lemma tap_outside_grid (x y current_time : Z) (g : globals) :
  row_of y = -1 \/ col_of x = -1 ->
  handle_keyboard_touch x y current_time g = Ok (false, g).
Proof.
  intros H. unfold handle_keyboard_touch.
  assert ((row_of y >=? 0) && (col_of x >=? 0) = false) as ->; [|reflexivity].
  apply andb_false_iff.
  destruct H as [H|H]; rewrite H; [left|right]; reflexivity.
Qed.

Lemma tap_backspace (x y current_time : Z) (g : globals) :
  row_of y = 3 -> col_of x = 0 ->
  handle_keyboard_touch x y current_time g =
    Ok (true, set_multitap_key None (remove_last_char g)).
Proof.
  intros Hr Hc. unfold handle_keyboard_touch. rewrite Hr, Hc. reflexivity.
Qed.

Lemma tap_mode_toggle (x y current_time : Z) (g : globals) :
  row_of y = 3 -> col_of x = 1 ->
  handle_keyboard_touch x y current_time g =
    Ok (true,
        set_multitap_key None
          (set_keyboard_mode
             (if String.eqb (keyboard_mode g) "abc" then "ABC"
              else if String.eqb (keyboard_mode g) "ABC" then "123"
              else "abc") g)).
Proof.
  intros Hr Hc. unfold handle_keyboard_touch. rewrite Hr, Hc. reflexivity.
Qed.

Lemma tap_search_button (x y current_time : Z) (g : globals) :
  row_of y = 3 -> col_of x = 2 ->
  handle_keyboard_touch x y current_time g =
    Ok (true, set_multitap_key None g).
Proof.
  intros Hr Hc. unfold handle_keyboard_touch. rewrite Hr, Hc. reflexivity.
Qed.

(** A tap on one of the nine letter cells: the key under the cell, its
    candidates, and the resulting globals in the two multitap cases. *)
Lemma tap_letter_cell (x y current_time : Z) (g : globals) :
  0 <= row_of y <= 2 -> 0 <= col_of x ->
  exists k cands c,
    list_index (dict_keys (current_keys g)) (row_of y * 3 + col_of x) = Ok k /\
    dict_get (current_keys g) k = Ok cands /\
    0 < len cands /\
    if key_eqb (multitap_key g) k && (current_time - multitap_time g <? 1000)
    then
      let n := (multitap_count g + 1) mod len cands in
      list_index cands n = Ok c /\
      handle_keyboard_touch x y current_time g =
        Ok (true,
            set_multitap_time current_time
              (set_search_text
                 (search_text (remove_last_char g) ++ c)%string
                 (remove_last_char (set_multitap_count n g))))
    else
      list_index cands 0 = Ok c /\
      handle_keyboard_touch x y current_time g =
        Ok (true,
            set_multitap_time current_time
              (set_search_text (search_text g ++ c)%string
                 (set_multitap_count 0 (set_multitap_key (Some k) g)))).
Proof.
  intros Hr Hc. pose proof (col_of_range x) as Hc'.
  destruct (layout_cell g (row_of y * 3 + col_of x)) as (k & cands & Hlt & Hk & Hd & Hn);
    [lia|].
  exists k, cands.
  unfold handle_keyboard_touch.
  assert ((row_of y >=? 0) && (col_of x >=? 0) = true) as ->.
  { apply andb_true_iff. split; apply Z.geb_le; lia. }
  assert ((row_of y * 3 + col_of x =? 9) = false) as -> by (apply Z.eqb_neq; lia).
  assert ((row_of y * 3 + col_of x =? 10) = false) as -> by (apply Z.eqb_neq; lia).
  assert ((row_of y * 3 + col_of x =? 11) = false) as -> by (apply Z.eqb_neq; lia).
  rewrite Hlt, Hk. cbn [bind].
  destruct (key_eqb (multitap_key g) k && (current_time - multitap_time g <? 1000)).
  - rewrite Hd. cbn [bind]. unfold py_mod.
    assert ((len cands =? 0) = false) as -> by (apply Z.eqb_neq; lia).
    cbn [bind].
    destruct (list_index_in_range cands ((multitap_count g + 1) mod len cands))
      as [c Hcand]; [apply Z.mod_pos_bound; lia|].
    exists c. repeat split; try assumption.
    assert (multitap_count (remove_last_char
              (set_multitap_count ((multitap_count g + 1) mod len cands) g))
            = (multitap_count g + 1) mod len cands) as ->.
    { unfold remove_last_char. destruct (_ >? 0); reflexivity. }
    rewrite Hcand. cbn [bind].
    assert (search_text (remove_last_char
              (set_multitap_count ((multitap_count g + 1) mod len cands) g))
            = search_text (remove_last_char g)) as ->; [|reflexivity].
    unfold remove_last_char. cbn [search_text set_multitap_count].
    destruct (_ >? 0); reflexivity.
  - cbn [bind]. rewrite Hd. cbn [bind].
    cbn [multitap_count set_multitap_count].
    destruct (list_index_in_range cands 0) as [c Hcand]; [lia|].
    exists c. repeat split; try assumption.
    rewrite Hcand. reflexivity.
Qed.

(** Where a tap can land. *)
Lemma tap_cases (x y : Z) :
  (row_of y = -1 \/ col_of x = -1) \/
  (row_of y = 3 /\ col_of x = 0) \/
  (row_of y = 3 /\ col_of x = 1) \/
  (row_of y = 3 /\ col_of x = 2) \/
  (0 <= row_of y <= 2 /\ 0 <= col_of x).
Proof. pose proof (row_of_range y). pose proof (col_of_range x). lia. Qed.

(** The part of the globals owned by the menu and the swipe detector. *)
Definition menu_part (g : globals) : Z * Z * option Z * option Z :=
  (main_menu g, sub_menu g, last_touch_x g, last_touch_y g).

(** The part of the globals owned by the keyboard. *)
Definition text_part (g : globals) : string * string * option string * Z * Z :=
  (search_text g, keyboard_mode g, multitap_key g, multitap_count g,
   multitap_time g).

Lemma remove_last_char_menu_part (g : globals) :
  menu_part (remove_last_char g) = menu_part g.
Proof. unfold remove_last_char. destruct (_ >? 0); reflexivity. Qed.

(** [handle_keyboard_touch] always returns, and writes none of the menu
    position or the anchor. *)
Lemma handle_keyboard_touch_returns (x y current_time : Z) (g : globals) :
  exists b g',
    handle_keyboard_touch x y current_time g = Ok (b, g') /\
    menu_part g' = menu_part g.
Proof.
  destruct (tap_cases x y) as [H|[[Hr Hc]|[[Hr Hc]|[[Hr Hc]|[Hr Hc]]]]].
  - exists false, g. split; [apply tap_outside_grid; exact H|reflexivity].
  - eexists _, _. split; [apply tap_backspace; assumption|].
    apply (remove_last_char_menu_part g).
  - eexists _, _. split; [apply tap_mode_toggle; assumption|reflexivity].
  - eexists _, _. split; [apply tap_search_button; assumption|reflexivity].
  - destruct (tap_letter_cell x y current_time g Hr Hc)
      as (k & cands & c & _ & _ & _ & H).
    destruct (key_eqb (multitap_key g) k && _); destruct H as [_ H];
      eexists _, _; (split; [exact H|]).
    + apply (remove_last_char_menu_part
               (set_multitap_count ((multitap_count g + 1) mod len cands) g)).
    + reflexivity.
Qed.

Lemma detect_swipe_text_part (td : option touch_data) (g : globals) :
  text_part (fst (detect_swipe td g)) = text_part g.
Proof.
  destruct (detect_swipe_text_frame td g) as (H1 & H2 & H3 & H4 & H5).
  unfold text_part. congruence.
Qed.

(** The swipe decision reads only the anchor. *)
Lemma swipe_fires_menu_part (td : option touch_data) (g g' : globals) :
  menu_part g' = menu_part g -> swipe_fires td g' = swipe_fires td g.
Proof.
  unfold menu_part, swipe_fires. intros H.
  injection H as _ _ Hx Hy. rewrite Hx, Hy. reflexivity.
Qed.

(** ** Keyboard: a cleared key makes the stale counter and time dead *)

(** Two states that the keyboard cannot tell apart: equal everywhere, except
    that with no active key the counter and the press time may differ. *)
Definition multitap_equiv (g1 g2 : globals) : Prop :=
  menu_part g1 = menu_part g2 /\
  search_text g1 = search_text g2 /\
  keyboard_mode g1 = keyboard_mode g2 /\
  multitap_key g1 = multitap_key g2 /\
  (multitap_key g1 <> None ->
   multitap_count g1 = multitap_count g2 /\
   multitap_time g1 = multitap_time g2).

(** The multitap state as it is at start-up. *)
Definition multitap_initial (g : globals) : Prop :=
  multitap_key g = None /\ multitap_count g = 0 /\ multitap_time g = 0.

Definition reset_multitap (g : globals) : globals :=
  set_multitap_time 0 (set_multitap_count 0 (set_multitap_key None g)).

Lemma reset_multitap_initial (g : globals) :
  multitap_initial (reset_multitap g).
Proof. repeat split. Qed.

Lemma cleared_key_equiv_reset (g : globals) :
  multitap_key g = None -> multitap_equiv g (reset_multitap g).
Proof.
  intros H. unfold multitap_equiv. repeat split; try assumption.
  all: intros; congruence.
Qed.

Lemma multitap_equiv_full (g1 g2 : globals) :
  multitap_equiv g1 g2 -> multitap_key g1 <> None -> g1 = g2.
Proof.
  intros (Hm & Ht & Hk & Hkey & Hrest) Hn.
  destruct (Hrest Hn) as [Hc Htime].
  destruct g1, g2. unfold menu_part in Hm. cbn in *.
  injection Hm as -> -> -> ->. congruence.
Qed.

(** Closes [multitap_equiv] between two states whose key is cleared. *)
Ltac close_equiv :=
  repeat split;
  try match goal with
      | N : multitap_key _ <> None |- _ => cbn in N; congruence
      end.

Lemma multitap_equiv_refl (g : globals) : multitap_equiv g g.
Proof. unfold multitap_equiv. repeat split. Qed.

(** The keyboard answers alike on states it cannot tell apart, and leaves
    them so. *)
Lemma handle_keyboard_touch_equiv (x y current_time : Z) (g1 g2 : globals) :
  multitap_equiv g1 g2 ->
  exists b g1' g2',
    handle_keyboard_touch x y current_time g1 = Ok (b, g1') /\
    handle_keyboard_touch x y current_time g2 = Ok (b, g2') /\
    multitap_equiv g1' g2'.
Proof.
  intros E.
  destruct (multitap_key g1) as [k0|] eqn:K.
  { assert (g1 = g2) as <- by (apply multitap_equiv_full; [exact E|congruence]).
    destruct (handle_keyboard_touch_returns x y current_time g1)
      as (b & g' & H & _).
    exists b, g', g'. auto using multitap_equiv_refl. }
  destruct E as (Hm & Ht & Hmode & Hkey & _). rewrite K in Hkey.
  destruct g1 as [m1 s1 lx1 ly1 t1 md1 k1 c1 tm1].
  destruct g2 as [m2 s2 lx2 ly2 t2 md2 k2 c2 tm2].
  unfold menu_part in Hm. cbn in Hm, Ht, Hmode, Hkey, K.
  injection Hm as -> -> -> ->. subst t2 md2 k1 k2.
  destruct (tap_cases x y) as [H|[[Hr Hc]|[[Hr Hc]|[[Hr Hc]|[Hr Hc]]]]].
  - rewrite !tap_outside_grid by exact H.
    eexists _, _, _. close_equiv.
  - rewrite !tap_backspace by assumption.
    eexists _, _, _. split; [reflexivity|]. split; [reflexivity|].
    unfold remove_last_char. cbn [search_text].
    destruct (str_len t1 >? 0); close_equiv.
  - rewrite !tap_mode_toggle by assumption.
    eexists _, _, _. close_equiv.
  - rewrite !tap_search_button by assumption.
    eexists _, _, _. close_equiv.
  - destruct (tap_letter_cell x y current_time
                (mk_globals m2 s2 lx2 ly2 t1 md1 None c1 tm1) Hr Hc)
      as (ka & cands_a & ca & Hka & Hda & _ & Ha).
    destruct (tap_letter_cell x y current_time
                (mk_globals m2 s2 lx2 ly2 t1 md1 None c2 tm2) Hr Hc)
      as (kb & cands_b & cb & Hkb & Hdb & _ & Hb).
    cbn [multitap_key key_eqb andb] in Ha, Hb.
    destruct Ha as [Hca Ha], Hb as [Hcb Hb].
    unfold current_keys in Hka, Hkb, Hda, Hdb. cbn [keyboard_mode] in *.
    assert (ka = kb) as -> by congruence.
    assert (cands_a = cands_b) as -> by congruence.
    assert (ca = cb) as -> by congruence.
    rewrite Ha, Hb. eexists _, _, _. close_equiv.
Qed.

(** ** Menu navigation by swipes *)

(** C4.  From an anchored sample, a move with [|dy| > 50] and [|dy| > |dx|]
    makes [detect_swipe] step [main_menu] by one modulo 5 (up by one when
    [dy > 0], down by one when [dy < 0]), set [sub_menu] to 0 and clear the
    anchor.  Nothing else is written and exactly one 300 ms sleep follows,
    so the horizontal branch does not run on that call. *)
Theorem vertical_swipe_steps_main_menu
  (t : touch_data) (g : globals) (lx ly : Z) :
  last_touch_x g = Some lx ->
  last_touch_y g = Some ly ->
  Z.abs (touch_y t - ly) > 50 ->
  Z.abs (touch_y t - ly) > Z.abs (touch_x t - lx) ->
  exists g',
    detect_swipe (Some t) g = (g', [SleepMs 300]) /\
    (touch_y t - ly > 0 -> main_menu g' = (main_menu g + 1) mod 5) /\
    (touch_y t - ly < 0 -> main_menu g' = (main_menu g - 1) mod 5) /\
    (touch_y t - ly > 0 \/ touch_y t - ly < 0) /\
    sub_menu g' = 0 /\
    last_touch_x g' = None /\
    last_touch_y g' = None /\
    text_part g' = text_part g.
Proof.
  intros Hx Hy H50 Hdom.
  assert (is_vertical_swipe (touch_x t - lx) (touch_y t - ly) = true) as V
    by (apply is_vertical_swipe_spec; auto).
  rewrite (detect_swipe_vertical t g lx ly Hx Hy V).
  eexists. split; [reflexivity|]. cbn.
  destruct (Z.gtb_spec (touch_y t - ly) 0); repeat split; intros; try lia.
Qed.

Lemma vertical_swipe_steps_main_menu_witness :
  exists g',
    detect_swipe (Some (mk_touch 120 200 1))
      (set_last_touch (Some 118) (Some 100) initial_globals)
    = (g', [SleepMs 300]) /\
    main_menu g' = 1 /\ sub_menu g' = 0 /\ last_touch_x g' = None.
Proof.
  destruct (vertical_swipe_steps_main_menu (mk_touch 120 200 1)
              (set_last_touch (Some 118) (Some 100) initial_globals) 118 100)
    as (g' & H & Hup & _ & _ & Hs & Hl & _).
  - reflexivity.
  - reflexivity.
  - cbn. lia.
  - cbn. lia.
  - exists g'. repeat split; try assumption.
    rewrite Hup; [reflexivity|cbn; lia].
Defined.

(** C5.  From an anchored sample, a move with [|dx| > 40] and [|dx| > |dy|]
    leaves [main_menu] alone and clears the anchor.  On a menu with one
    screen [sub_menu] is unchanged, hence still 0 wherever the menu invariant
    held; on a menu with more, it steps up modulo the screen count when
    [dx < 0] and down when [dx > 0].  On the weather menu, starting at
    screen 0, a left swipe gives screen 1, and after a new anchor a second
    left swipe wraps to screen 0. *)
Theorem horizontal_swipe_steps_sub_menu
  (t : touch_data) (g : globals) (lx ly : Z) :
  last_touch_x g = Some lx ->
  last_touch_y g = Some ly ->
  Z.abs (touch_x t - lx) > 40 ->
  Z.abs (touch_x t - lx) > Z.abs (touch_y t - ly) ->
  exists g',
    detect_swipe (Some t) g = (g', [SleepMs 300]) /\
    main_menu g' = main_menu g /\
    last_touch_x g' = None /\
    last_touch_y g' = None /\
    (get_max_submenus (main_menu g) <= 1 ->
     sub_menu g' = sub_menu g /\ (menu_invariant g -> sub_menu g' = 0)) /\
    (get_max_submenus (main_menu g) > 1 ->
     (touch_x t - lx < 0 ->
      sub_menu g' = (sub_menu g + 1) mod get_max_submenus (main_menu g)) /\
     (touch_x t - lx > 0 ->
      sub_menu g' = (sub_menu g - 1) mod get_max_submenus (main_menu g))) /\
    (main_menu g = 1 -> sub_menu g = 0 -> touch_x t - lx < 0 ->
     sub_menu g' = 1 /\
     forall t2 t3 : touch_data,
       touch_x t3 - touch_x t2 < -40 ->
       Z.abs (touch_x t3 - touch_x t2) > Z.abs (touch_y t3 - touch_y t2) ->
       let g2 := fst (detect_swipe (Some t2) g') in
       let g3 := fst (detect_swipe (Some t3) g2) in
       main_menu g3 = 1 /\ sub_menu g2 = 1 /\ sub_menu g3 = 0).
Proof.
  intros Hx Hy H40 Hdom.
  assert (is_horizontal_swipe (touch_x t - lx) (touch_y t - ly) = true) as Hh
    by (apply is_horizontal_swipe_spec; auto).
  rewrite (detect_swipe_horizontal t g lx ly Hx Hy Hh).
  eexists. split; [reflexivity|].
  cbn [main_menu sub_menu last_touch_x last_touch_y set_last_touch set_menu].
  split; [reflexivity|]. split; [reflexivity|]. split; [reflexivity|].
  split; [|split].
  - intros Hone.
    destruct (Z.gtb_spec (get_max_submenus (main_menu g)) 1); [lia|].
    split; [reflexivity|]. intros [_ Hs]. lia.
  - intros Hmany.
    destruct (Z.gtb_spec (get_max_submenus (main_menu g)) 1); [|lia].
    destruct (Z.ltb_spec (touch_x t - lx) 0); split; intros; (reflexivity || lia).
  - intros Hm Hs Hneg. rewrite Hm, Hs.
    change (get_max_submenus 1) with 2. change (2 >? 1) with true.
    destruct (Z.ltb_spec (touch_x t - lx) 0); [|lia].
    change ((0 + 1) mod 2) with 1.
    split; [reflexivity|]. intros t2 t3 H2 H3.
    rewrite (detect_swipe_anchor t2) by reflexivity. cbn [fst].
    rewrite (detect_swipe_horizontal t3 _ (touch_x t2) (touch_y t2))
      by (try reflexivity; apply is_horizontal_swipe_spec; lia).
    cbn [fst main_menu sub_menu last_touch_x last_touch_y set_last_touch
         set_menu].
    change (get_max_submenus 1) with 2. change (2 >? 1) with true.
    destruct (Z.ltb_spec (touch_x t3 - touch_x t2) 0); [|lia].
    repeat split.
Qed.

Lemma horizontal_swipe_steps_sub_menu_witness :
  exists g',
    detect_swipe (Some (mk_touch 100 105 1))
      (set_last_touch (Some 200) (Some 100) (set_menu 1 0 initial_globals))
    = (g', [SleepMs 300]) /\
    main_menu g' = 1 /\ sub_menu g' = 1 /\
    sub_menu (fst (detect_swipe (Some (mk_touch 90 100 1))
                (fst (detect_swipe (Some (mk_touch 200 100 1)) g')))) = 0.
Proof.
  destruct (horizontal_swipe_steps_sub_menu (mk_touch 100 105 1)
              (set_last_touch (Some 200) (Some 100)
                 (set_menu 1 0 initial_globals)) 200 100)
    as (g' & H & Hm & _ & _ & _ & _ & Hw).
  - reflexivity.
  - reflexivity.
  - cbn. lia.
  - cbn. lia.
  - destruct Hw as [Hs Hw]; [reflexivity|reflexivity|cbn; lia|].
    exists g'. split; [exact H|]. split; [exact Hm|]. split; [exact Hs|].
    apply (Hw (mk_touch 200 100 1) (mk_touch 90 100 1)); cbn; lia.
Defined.

(** ** The menu invariant *)

Lemma initial_menu_invariant : menu_invariant initial_globals.
Proof. unfold menu_invariant. cbn. lia. Qed.

Lemma do_call_invariant (c : call) (g : globals) :
  menu_invariant g ->
  exists g', do_call c g = Ok g' /\ menu_invariant g'.
Proof.
  intros Inv. destruct c as [td|x y t]; cbn [do_call].
  - eexists. split; [reflexivity|]. apply detect_swipe_invariant. exact Inv.
  - destruct (handle_keyboard_touch_returns x y t g) as (b & g' & H & Hm).
    rewrite H. cbn. exists g'. split; [reflexivity|].
    unfold menu_part in Hm. injection Hm as Hmain Hsub _ _.
    unfold menu_invariant in *. rewrite Hmain, Hsub. exact Inv.
Qed.

Lemma states_after_invariant (cs : list call) :
  forall g, menu_invariant g ->
  exists gs,
    states_after cs g = Ok gs /\
    length gs = length cs /\
    Forall menu_invariant gs.
Proof.
  induction cs as [|c cs IH]; intros g Inv.
  - exists []. repeat split. constructor.
  - destruct (do_call_invariant c g Inv) as (g' & Hc & Inv').
    destruct (IH g' Inv') as (gs & Hgs & Hlen & Hall).
    exists (g' :: gs). cbn [states_after]. rewrite Hc. cbn [bind].
    rewrite Hgs. cbn [bind]. repeat split.
    + cbn. rewrite Hlen. reflexivity.
    + constructor; assumption.
Qed.

(** C2.  Whatever sequence of [detect_swipe] and [handle_keyboard_touch]
    calls is made from the start-up globals, every call returns and the
    globals after each one satisfy [0 <= main_menu < 5] and
    [0 <= sub_menu < get_max_submenus main_menu], where [get_max_submenus]
    is 1, 2, 1, 1, 1 on the menus 0 to 4. *)
Theorem menu_invariant_after_every_call (cs : list call) :
  map get_max_submenus [0; 1; 2; 3; 4] = [1; 2; 1; 1; 1] /\
  exists gs,
    states_after cs initial_globals = Ok gs /\
    length gs = length cs /\
    Forall (fun g => 0 <= main_menu g < 5 /\
                     0 <= sub_menu g < get_max_submenus (main_menu g)) gs.
Proof.
  split; [reflexivity|].
  apply states_after_invariant. exact initial_menu_invariant.
Qed.

(** ** Keyboard: pixel bands and string facts *)

Lemma row_of_band (y : Z) :
  (50 <= y <= 80 -> row_of y = 0) /\
  (90 <= y <= 120 -> row_of y = 1) /\
  (130 <= y <= 160 -> row_of y = 2) /\
  (170 <= y <= 200 -> row_of y = 3).
Proof. destruct (row_of_cases y) as [H|[H|[H|[H|H]]]]; lia. Qed.

Lemma col_of_band (x : Z) :
  (20 <= x <= 80 -> col_of x = 0) /\
  (90 <= x <= 150 -> col_of x = 1) /\
  (160 <= x <= 220 -> col_of x = 2).
Proof. destruct (col_of_cases x) as [H|[H|[H|H]]]; lia. Qed.

Lemma drop_last_snoc (s : string) (c : ascii) :
  drop_last (s ++ String c EmptyString) = s.
Proof.
  induction s as [|a s IH]; [reflexivity|].
  cbn [String.append drop_last]. rewrite IH.
  destruct s; reflexivity.
Qed.

Lemma str_len_snoc (s : string) (c : ascii) :
  (str_len (s ++ String c EmptyString) >? 0) = true.
Proof.
  apply Z.gtb_lt. unfold str_len.
  destruct s; cbn [String.append String.length]; lia.
Qed.

Lemma drop_last_split (s : string) :
  s <> EmptyString ->
  exists c, s = (drop_last s ++ String c EmptyString)%string.
Proof.
  induction s as [|a s IH]; [congruence|]. intros _.
  destruct s as [|b s].
  - exists a. reflexivity.
  - destruct IH as [c Hc]; [congruence|].
    exists c. cbn [drop_last String.append] in *. rewrite <- Hc. reflexivity.
Qed.

Lemma remove_last_char_text (g : globals) :
  search_text (remove_last_char g) = drop_last (search_text g).
Proof.
  unfold remove_last_char.
  destruct (Z.gtb_spec (str_len (search_text g)) 0) as [H|H]; [reflexivity|].
  destruct (search_text g); [reflexivity|].
  unfold str_len in H. cbn [String.length] in H. lia.
Qed.

Lemma remove_last_char_rest (g : globals) :
  menu_part (remove_last_char g) = menu_part g /\
  keyboard_mode (remove_last_char g) = keyboard_mode g /\
  multitap_key (remove_last_char g) = multitap_key g /\
  multitap_count (remove_last_char g) = multitap_count g /\
  multitap_time (remove_last_char g) = multitap_time g.
Proof. unfold remove_last_char. destruct (_ >? 0); repeat split. Qed.

(** ** Keyboard: the special cells *)

(** C7, as the code has it.  A tap on the Backspace cell (row band 170..200,
    column band 20..80) returns [True] without raising.  On an empty buffer
    the buffer stays empty; on a non-empty one exactly the last character
    goes.  The multitap key is cleared; the multitap counter and press time
    keep their values, which no later tap reads: any next tap is answered as
    from the start-up multitap state. *)
Theorem backspace_tap (x y current_time : Z) (g : globals) :
  170 <= y <= 200 ->
  20 <= x <= 80 ->
  exists g',
    handle_keyboard_touch x y current_time g = Ok (true, g') /\
    (search_text g = "" -> search_text g' = "") /\
    (search_text g <> "" ->
     exists c, search_text g = (search_text g' ++ String c EmptyString)%string) /\
    multitap_key g' = None /\
    multitap_count g' = multitap_count g /\
    multitap_time g' = multitap_time g /\
    keyboard_mode g' = keyboard_mode g /\
    menu_part g' = menu_part g /\
    forall x2 y2 t2,
    exists b h1 h2,
      handle_keyboard_touch x2 y2 t2 g' = Ok (b, h1) /\
      handle_keyboard_touch x2 y2 t2 (reset_multitap g') = Ok (b, h2) /\
      multitap_equiv h1 h2.
Proof.
  intros Hy Hx.
  rewrite tap_backspace
    by (apply (row_of_band y) || apply (col_of_band x); assumption).
  eexists. split; [reflexivity|].
  destruct (remove_last_char_rest g) as (Hm & Hmode & _ & Hcnt & Htime).
  cbn [search_text keyboard_mode multitap_key multitap_count multitap_time
       set_multitap_key].
  rewrite remove_last_char_text.
  split; [intros ->; reflexivity|].
  split; [apply drop_last_split|].
  split; [reflexivity|]. split; [exact Hcnt|]. split; [exact Htime|].
  split; [exact Hmode|]. split; [exact Hm|].
  intros x2 y2 t2. apply handle_keyboard_touch_equiv.
  apply cleared_key_equiv_reset. reflexivity.
Qed.

Lemma backspace_tap_witness :
  handle_keyboard_touch 50 180 0 initial_globals = Ok (true, initial_globals)
  /\ exists g',
       handle_keyboard_touch 50 180 7
         (set_search_text "hi" initial_globals) = Ok (true, g') /\
       search_text g' = "h".
Proof.
  split; [reflexivity|].
  destruct (backspace_tap 50 180 7 (set_search_text "hi" initial_globals))
    as (g' & H & _ & Hne & _); [lia|lia|].
  exists g'. split; [exact H|].
  destruct Hne as [c Hc]; [discriminate|].
  cbn in H. injection H as <-. reflexivity.
Defined.

(** The globals once "e" has been typed by two taps on the "def" cell and
    deleted again by a tap on the Backspace cell. *)
Definition deleted_e : globals :=
  {| main_menu := 0; sub_menu := 0;
     last_touch_x := None; last_touch_y := None;
     search_text := ""; keyboard_mode := "abc";
     multitap_key := None; multitap_count := 1; multitap_time := 500 |}.

(** C7 as stated fails.  After "e" has been typed by two taps on the "def"
    cell at 0 ms and 500 ms and deleted by a Backspace tap at 600 ms, the
    buffer is empty; a further Backspace tap at 700 ms leaves it empty and
    returns [True], but does not leave the multitap state as at start-up:
    the counter is still 1 and the press time still 500. *)
Lemma backspace_keeps_counter_and_time :
  (r1 <- handle_keyboard_touch 100 60 0 initial_globals ;;
   r2 <- handle_keyboard_touch 100 60 500 (snd r1) ;;
   handle_keyboard_touch 50 180 600 (snd r2)) = Ok (true, deleted_e) /\
  search_text deleted_e = "" /\
  handle_keyboard_touch 50 180 700 deleted_e = Ok (true, deleted_e) /\
  ~ (exists g',
       handle_keyboard_touch 50 180 700 deleted_e = Ok (true, g') /\
       search_text g' = "" /\
       multitap_initial g').
Proof.
  do 3 (split; [reflexivity|]).
  intros (g' & H & _ & _ & Hc & _).
  vm_compute in H. injection H as <-. discriminate Hc.
Qed.

(** C6, as the code has it.  A tap on the mode cell (row band 170..200,
    column band 90..150) returns [True], moves [keyboard_mode] one step
    along abc, ABC, 123, abc, leaves the buffer alone and clears the multitap
    key.  The multitap counter and press time keep their values, which no
    later tap reads: any next tap is answered as from the start-up multitap
    state. *)
Theorem mode_toggle_tap (x y current_time : Z) (g : globals) :
  170 <= y <= 200 ->
  90 <= x <= 150 ->
  exists g',
    handle_keyboard_touch x y current_time g = Ok (true, g') /\
    (keyboard_mode g = "abc" -> keyboard_mode g' = "ABC") /\
    (keyboard_mode g = "ABC" -> keyboard_mode g' = "123") /\
    (keyboard_mode g = "123" -> keyboard_mode g' = "abc") /\
    search_text g' = search_text g /\
    multitap_key g' = None /\
    multitap_count g' = multitap_count g /\
    multitap_time g' = multitap_time g /\
    menu_part g' = menu_part g /\
    forall x2 y2 t2,
    exists b h1 h2,
      handle_keyboard_touch x2 y2 t2 g' = Ok (b, h1) /\
      handle_keyboard_touch x2 y2 t2 (reset_multitap g') = Ok (b, h2) /\
      multitap_equiv h1 h2.
Proof.
  intros Hy Hx.
  rewrite tap_mode_toggle
    by (apply (row_of_band y) || apply (col_of_band x); assumption).
  eexists. split; [reflexivity|].
  cbn [search_text keyboard_mode multitap_key multitap_count multitap_time
       set_multitap_key set_keyboard_mode].
  do 3 (split; [intros ->; reflexivity|]).
  do 5 (split; [reflexivity|]).
  intros x2 y2 t2. apply handle_keyboard_touch_equiv.
  apply cleared_key_equiv_reset. reflexivity.
Qed.

Lemma mode_toggle_tap_witness :
  exists g1 g2 g3,
    handle_keyboard_touch 100 180 0 initial_globals = Ok (true, g1) /\
    handle_keyboard_touch 100 180 0 g1 = Ok (true, g2) /\
    handle_keyboard_touch 100 180 0 g2 = Ok (true, g3) /\
    keyboard_mode g1 = "ABC" /\ keyboard_mode g2 = "123" /\
    keyboard_mode g3 = "abc".
Proof.
  destruct (mode_toggle_tap 100 180 0 initial_globals)
    as (g1 & H1 & M1 & _ & _ & _); [lia|lia|].
  destruct (mode_toggle_tap 100 180 0 g1)
    as (g2 & H2 & _ & M2 & _); [lia|lia|].
  destruct (mode_toggle_tap 100 180 0 g2)
    as (g3 & H3 & _ & _ & M3 & _); [lia|lia|].
  exists g1, g2, g3.
  pose proof (M1 eq_refl) as E1.
  pose proof (M2 E1) as E2.
  pose proof (M3 E2) as E3.
  repeat split; assumption.
Defined.

(** The globals once "e" has been typed by two taps on the "def" cell. *)
Definition typed_e : globals :=
  {| main_menu := 0; sub_menu := 0;
     last_touch_x := None; last_touch_y := None;
     search_text := "e"; keyboard_mode := "abc";
     multitap_key := Some "def"; multitap_count := 1; multitap_time := 500 |}.

(** C6 as stated fails.  After "e" has been typed by two taps on the "def"
    cell at 0 ms and 500 ms, a tap on the mode cell at 600 ms does not leave
    the multitap state as at start-up: the counter is still 1 and the press
    time still 500. *)
Lemma mode_toggle_keeps_counter_and_time :
  (r <- handle_keyboard_touch 100 60 0 initial_globals ;;
   handle_keyboard_touch 100 60 500 (snd r)) = Ok (true, typed_e) /\
  handle_keyboard_touch 100 180 600 typed_e =
    Ok (true, set_multitap_key None (set_keyboard_mode "ABC" typed_e)) /\
  ~ (exists g',
       handle_keyboard_touch 100 180 600 typed_e = Ok (true, g') /\
       multitap_initial g').
Proof.
  split; [reflexivity|]. split; [reflexivity|].
  intros (g' & H & _ & Hc & _).
  vm_compute in H. injection H as <-. discriminate Hc.
Qed.

(** ** Keyboard: taps outside the grid *)

(** C9.  A tap whose [y] lies in none of the row bands 50..80, 90..120,
    130..160, 170..200, or whose [x] lies in none of the column bands 20..80,
    90..150, 160..220 (the gaps between bands included) returns [False] and
    leaves every global as it was. *)
Theorem tap_outside_bands_ignored (x y current_time : Z) (g : globals) :
  (~ 50 <= y <= 80 /\ ~ 90 <= y <= 120 /\
   ~ 130 <= y <= 160 /\ ~ 170 <= y <= 200) \/
  (~ 20 <= x <= 80 /\ ~ 90 <= x <= 150 /\ ~ 160 <= x <= 220) ->
  handle_keyboard_touch x y current_time g = Ok (false, g).
Proof.
  intros H. apply tap_outside_grid.
  destruct (row_of_cases y) as [Hy|[Hy|[Hy|[Hy|Hy]]]];
    destruct (col_of_cases x) as [Hx|[Hx|[Hx|Hx]]]; lia.
Qed.

Lemma tap_outside_bands_ignored_witness :
  handle_keyboard_touch 85 60 42 typed_e = Ok (false, typed_e) /\
  handle_keyboard_touch 100 85 42 typed_e = Ok (false, typed_e) /\
  handle_keyboard_touch 100 81 42 typed_e = Ok (false, typed_e) /\
  handle_keyboard_touch 120 240 42 typed_e = Ok (false, typed_e).
Proof.
  split; [apply (tap_outside_bands_ignored 85 60 42 typed_e); lia|].
  split; [apply (tap_outside_bands_ignored 100 85 42 typed_e); lia|].
  split; [apply (tap_outside_bands_ignored 100 81 42 typed_e); lia|].
  apply (tap_outside_bands_ignored 120 240 42 typed_e); lia.
Defined.

(** ** Keyboard: multitap on the letter cells *)

Lemma tap_depends_on_cell (x y x' y' current_time : Z) (g : globals) :
  row_of y = row_of y' -> col_of x = col_of x' ->
  handle_keyboard_touch x y current_time g =
  handle_keyboard_touch x' y' current_time g.
Proof.
  intros Hr Hc. unfold handle_keyboard_touch. rewrite Hr, Hc. reflexivity.
Qed.

(** C3.  From the start-up globals, the cell of row band 50..80 and column
    band 90..150 carries the key "def".  A tap on it at 0 ms returns [True]
    and gives the buffer "d"; a second tap at 500 ms returns [True] and gives
    "e"; a third at 1600 ms returns [True] and gives "ed". *)
Theorem def_cell_multitap (x y : Z) :
  50 <= y <= 80 ->
  90 <= x <= 150 ->
  list_index (dict_keys (current_keys initial_globals))
    (row_of y * 3 + col_of x) = Ok "def" /\
  exists g1 g2 g3,
    handle_keyboard_touch x y 0 initial_globals = Ok (true, g1) /\
    search_text g1 = "d" /\
    handle_keyboard_touch x y 500 g1 = Ok (true, g2) /\
    search_text g2 = "e" /\
    handle_keyboard_touch x y 1600 g2 = Ok (true, g3) /\
    search_text g3 = "ed".
Proof.
  intros Hy Hx.
  assert (row_of y = row_of 60) as Hr
    by (rewrite (proj1 (row_of_band y) Hy); reflexivity).
  assert (col_of x = col_of 100) as Hc
    by (rewrite (proj1 (proj2 (col_of_band x)) Hx); reflexivity).
  split; [rewrite Hr, Hc; reflexivity|].
  eexists _, _, _.
  rewrite !(tap_depends_on_cell x y 100 60) by assumption.
  repeat split.
Qed.

Lemma def_cell_multitap_witness :
  exists g1 g2 g3,
    handle_keyboard_touch 120 65 0 initial_globals = Ok (true, g1) /\
    search_text g1 = "d" /\
    handle_keyboard_touch 120 65 500 g1 = Ok (true, g2) /\
    search_text g2 = "e" /\
    handle_keyboard_touch 120 65 1600 g2 = Ok (true, g3) /\
    search_text g3 = "ed".
Proof.
  apply (def_cell_multitap 120 65); lia.
Defined.

(** ** Keyboard: the numeric layout *)

Lemma numeric_keys (g : globals) :
  keyboard_mode g = "123" -> current_keys g = multitap_numbers.
Proof. intros H. unfold current_keys. rewrite H. reflexivity. Qed.

(** The keys under the nine letter cells of the numeric layout. *)
Lemma numeric_letter_cells (idx : Z) (k : string) :
  0 <= idx <= 8 ->
  list_index (dict_keys multitap_numbers) idx = Ok k ->
  dict_get multitap_numbers k = Ok [k] /\
  In k ["1"; "2"; "3"; "4"; "5"; "6"; "7"; "8"; "9"] /\
  exists d, k = String d EmptyString.
Proof.
  intros Hi.
  assert (idx = 0 \/ idx = 1 \/ idx = 2 \/ idx = 3 \/ idx = 4 \/
          idx = 5 \/ idx = 6 \/ idx = 7 \/ idx = 8) as Hc by lia.
  repeat (destruct Hc as [Hc|Hc]; [subst idx; intros H; vm_compute in H;
    injection H as <-; split; [reflexivity|]; split;
    [cbn; tauto|eexists; reflexivity]|]).
  subst idx; intros H; vm_compute in H; injection H as <-.
  split; [reflexivity|]. split; [cbn; tauto|eexists; reflexivity].
Qed.

(** One tap on a digit cell in numeric mode. *)
Lemma numeric_digit_tap (x y current_time : Z) (g : globals) :
  keyboard_mode g = "123" ->
  0 <= row_of y <= 2 -> 0 <= col_of x ->
  exists k g1,
    list_index (dict_keys multitap_numbers) (row_of y * 3 + col_of x) = Ok k /\
    handle_keyboard_touch x y current_time g = Ok (true, g1) /\
    search_text g1 =
      String.append
        (if key_eqb (multitap_key g) k
            && (current_time - multitap_time g <? 1000)
         then drop_last (search_text g) else search_text g) k /\
    keyboard_mode g1 = "123" /\
    multitap_key g1 = Some k /\
    multitap_count g1 = 0 /\
    multitap_time g1 = current_time.
Proof.
  intros Hmode Hr Hc. pose proof (col_of_range x) as Hc'.
  destruct (tap_letter_cell x y current_time g Hr Hc)
    as (k & cands & c & Hk & Hd & _ & H).
  rewrite (numeric_keys g Hmode) in Hk, Hd.
  destruct (numeric_letter_cells (row_of y * 3 + col_of x) k ltac:(lia) Hk) as (Hd' & _ & _).
  assert (cands = [k]) as -> by congruence.
  exists k.
  destruct (key_eqb (multitap_key g) k) eqn:E; cbn [andb] in *.
  - destruct (current_time - multitap_time g <? 1000).
    + change (len [k]) with 1 in H. rewrite Z.mod_1_r in H.
      destruct H as [Hcand H]. vm_compute in Hcand. injection Hcand as <-.
      eexists. split; [exact Hk|]. split; [exact H|].
      destruct (remove_last_char_rest (set_multitap_count 0 g))
        as (_ & Hm & Hkey & Hcnt & _).
      cbn [search_text keyboard_mode multitap_key multitap_count
           multitap_time set_multitap_time set_search_text].
      rewrite remove_last_char_text, Hm, Hkey, Hcnt.
      cbn [keyboard_mode multitap_key multitap_count set_multitap_count].
      repeat split; try assumption.
      destruct (multitap_key g) as [k0|]; [|discriminate E].
      cbn in E. apply String.eqb_eq in E. congruence.
    + destruct H as [Hcand H]. vm_compute in Hcand. injection Hcand as <-.
      eexists. split; [exact Hk|]. split; [exact H|].
      cbn. repeat split; assumption.
  - destruct H as [Hcand H]. vm_compute in Hcand. injection Hcand as <-.
    eexists. split; [exact Hk|]. split; [exact H|].
    cbn. repeat split; assumption.
Qed.

(** C1, as the code has it.  In numeric mode the nine cells of rows 0 to 2
    carry the digits "1" to "9", each with itself as only candidate.  A tap
    on such a cell returns [True] and appends the digit when it starts a new
    character, or puts it in place of the last character when it repeats the
    active key within 1000 ms.  A second tap on the same cell less than
    1000 ms later leaves the buffer as the first tap left it and keeps the
    counter at 0.  The three cells of row 3, where the layout lists "0", "."
    and "@", are Backspace, mode toggle and search button as in every
    mode. *)
Theorem numeric_mode_cells (x y t1 t2 : Z) (g : globals) :
  keyboard_mode g = "123" ->
  0 <= row_of y ->
  0 <= col_of x ->
  (row_of y <= 2 ->
   exists k g1 g2,
     list_index (dict_keys multitap_numbers) (row_of y * 3 + col_of x) = Ok k /\
     dict_get multitap_numbers k = Ok [k] /\
     In k ["1"; "2"; "3"; "4"; "5"; "6"; "7"; "8"; "9"] /\
     handle_keyboard_touch x y t1 g = Ok (true, g1) /\
     (key_eqb (multitap_key g) k && (t1 - multitap_time g <? 1000) = false ->
      search_text g1 = (search_text g ++ k)%string) /\
     (key_eqb (multitap_key g) k && (t1 - multitap_time g <? 1000) = true ->
      search_text g1 = (drop_last (search_text g) ++ k)%string) /\
     (t2 - t1 < 1000 ->
      handle_keyboard_touch x y t2 g1 = Ok (true, g2) /\
      search_text g2 = search_text g1 /\
      multitap_count g2 = 0)) /\
  (row_of y = 3 ->
   list_index (dict_keys multitap_numbers) (row_of y * 3 + col_of x) =
     Ok (if col_of x =? 0 then "0" else if col_of x =? 1 then "." else "@") /\
   handle_keyboard_touch x y t1 g =
     Ok (true,
         set_multitap_key None
           (if col_of x =? 0 then remove_last_char g
            else if col_of x =? 1 then set_keyboard_mode "abc" g
            else g))).
Proof.
  intros Hmode Hr Hc. pose proof (col_of_range x) as Hc'. split.
  - intros Hr2.
    destruct (numeric_digit_tap x y t1 g Hmode ltac:(lia) Hc)
      as (k & g1 & Hk & H1 & Ht1 & Hm1 & Hkey1 & Hcnt1 & Htime1).
    destruct (numeric_letter_cells (row_of y * 3 + col_of x) k ltac:(lia) Hk) as (Hd & Hin & d & Hdk).
    destruct (numeric_digit_tap x y t2 g1 Hm1 ltac:(lia) Hc)
      as (k' & g2 & Hk' & H2 & Ht2 & _ & _ & Hcnt2 & _).
    assert (k' = k) as -> by congruence.
    exists k, g1, g2.
    do 4 (split; [assumption|]).
    split; [intros E; rewrite E in Ht1; exact Ht1|].
    split; [intros E; rewrite E in Ht1; exact Ht1|].
    intros Hwin. split; [exact H2|]. split; [|exact Hcnt2].
    rewrite Ht2, Hkey1, Htime1. cbn [key_eqb]. rewrite String.eqb_refl.
    destruct (Z.ltb_spec (t2 - t1) 1000); [|lia]. cbn [andb].
    rewrite Ht1, Hdk, drop_last_snoc. reflexivity.
  - intros Hr3. rewrite Hr3.
    assert (col_of x = 0 \/ col_of x = 1 \/ col_of x = 2) as [E|[E|E]] by lia;
      rewrite E; (split; [reflexivity|]).
    + apply tap_backspace; assumption.
    + rewrite tap_mode_toggle by assumption. rewrite Hmode. reflexivity.
    + apply tap_search_button; assumption.
Qed.

(** The globals once "12" has been typed in numeric mode: two taps on the
    mode cell, then one on the "1" cell and one on the "2" cell. *)
Definition typed_12 : globals :=
  {| main_menu := 0; sub_menu := 0;
     last_touch_x := None; last_touch_y := None;
     search_text := "12"; keyboard_mode := "123";
     multitap_key := Some "2"; multitap_count := 0; multitap_time := 10 |}.

Lemma numeric_mode_cells_witness :
  exists g1 g2,
    handle_keyboard_touch 160 140 20 typed_12 = Ok (true, g1) /\
    search_text g1 = "129" /\
    handle_keyboard_touch 160 140 400 g1 = Ok (true, g2) /\
    search_text g2 = "129" /\
    handle_keyboard_touch 100 180 20 typed_12 =
      Ok (true, set_multitap_key None (set_keyboard_mode "abc" typed_12)).
Proof.
  destruct (numeric_mode_cells 160 140 20 400 typed_12) as [Hd _];
    [reflexivity|cbn; lia|cbn; lia|].
  destruct Hd as (k & g1 & g2 & Hk & _ & _ & H1 & Hfresh & _ & Hrep);
    [cbn; lia|].
  vm_compute in Hk. injection Hk as <-.
  destruct Hrep as (H2 & Ht2 & _); [lia|].
  exists g1, g2.
  split; [exact H1|]. split; [apply Hfresh; reflexivity|].
  split; [exact H2|]. split; [rewrite Ht2; apply Hfresh; reflexivity|].
  destruct (numeric_mode_cells 100 180 20 400 typed_12) as [_ Hs];
    [reflexivity|cbn; lia|cbn; lia|].
  apply Hs. reflexivity.
Defined.

(** C1 as stated fails.  In numeric mode, with "12" typed, the cell of row 3
    and column 0 is where the layout lists "0" with the single candidate
    "0"; a tap on it does not append "0" but deletes the "2". *)
Lemma numeric_zero_cell_is_backspace :
  (r1 <- handle_keyboard_touch 100 180 0 initial_globals ;;
   r2 <- handle_keyboard_touch 100 180 0 (snd r1) ;;
   r3 <- handle_keyboard_touch 50 60 0 (snd r2) ;;
   handle_keyboard_touch 100 60 10 (snd r3)) = Ok (true, typed_12) /\
  list_index (dict_keys (current_keys typed_12)) (row_of 180 * 3 + col_of 50)
    = Ok "0" /\
  dict_get (current_keys typed_12) "0" = Ok ["0"] /\
  handle_keyboard_touch 50 180 20 typed_12 =
    Ok (true, set_multitap_key None (set_search_text "1" typed_12)) /\
  ~ (exists g',
       handle_keyboard_touch 50 180 20 typed_12 = Ok (true, g') /\
       search_text g' = (search_text typed_12 ++ "0")%string).
Proof.
  do 4 (split; [reflexivity|]).
  intros (g' & H & Ht).
  vm_compute in H. injection H as <-. discriminate Ht.
Qed.

(** ** The two handlers in one iteration *)

(** The menu side of [detect_swipe] reads only the menu side. *)
Lemma detect_swipe_menu_part (td : option touch_data) (g1 g2 : globals) :
  menu_part g1 = menu_part g2 ->
  menu_part (fst (detect_swipe td g1)) = menu_part (fst (detect_swipe td g2)).
Proof.
  unfold menu_part. intros H. injection H as Hm Hs Hx Hy.
  unfold detect_swipe. rewrite Hx, Hy.
  destruct td as [t|]; [|cbn; congruence].
  destruct (last_touch_x g2) as [lx|]; [|cbn; congruence].
  destruct (last_touch_y g2) as [ly|]; [|cbn; congruence].
  destruct (is_vertical_swipe _ _); [cbn; rewrite Hm; reflexivity|].
  destruct (is_horizontal_swipe _ _); cbn; rewrite ?Hm, ?Hs; reflexivity.
Qed.

(** The [if touch_enabled:] block, taken apart: the keyboard step (if any),
    then [detect_swipe] on the globals the keyboard left. *)
Lemma poll_touch_spec (inp : tick_input) (g : globals) :
  exists b gk,
    match polled inp with
    | Some t =>
      if main_menu g =? 3
      then handle_keyboard_touch (touch_x t) (touch_y t) (ticks_ms inp) g
           = Ok (b, gk)
      else b = false /\ gk = g
    | None => b = false /\ gk = g
    end /\
    menu_part gk = menu_part g /\
    poll_touch true inp g =
      Ok (fst (detect_swipe (polled inp) gk),
          GetTouch (polled inp)
            :: (if b then [DisplayFill; DrawSearchScreen] else [])
            ++ snd (detect_swipe (polled inp) gk)).
Proof.
  unfold poll_touch.
  destruct (polled inp) as [t|].
  - destruct (main_menu g =? 3).
    + destruct (handle_keyboard_touch_returns (touch_x t) (touch_y t)
                  (ticks_ms inp) g) as (b & gk & H & Hm).
      exists b, gk. rewrite H. cbn [bind fst snd]. auto.
    + exists false, g. cbn [bind fst snd]. auto.
  - exists false, g. cbn [bind fst snd]. auto.
Qed.

(** C10.  [detect_swipe] leaves the buffer, the keyboard mode and the three
    multitap variables as they were; [handle_keyboard_touch] always returns
    and leaves the menu position and the anchor as they were; and when the
    main loop hands one sample on the search screen to both, the text side
    of the outcome is that of the keyboard alone and the menu side that of
    the swipe detector alone. *)
Theorem handlers_have_disjoint_footprints :
  (forall td g, text_part (fst (detect_swipe td g)) = text_part g) /\
  (forall x y current_time g,
     exists b g',
       handle_keyboard_touch x y current_time g = Ok (b, g') /\
       menu_part g' = menu_part g) /\
  (forall inp t g,
     polled inp = Some t ->
     main_menu g = 3 ->
     exists b gk g' es,
       handle_keyboard_touch (touch_x t) (touch_y t) (ticks_ms inp) g
         = Ok (b, gk) /\
       poll_touch true inp g = Ok (g', es) /\
       text_part g' = text_part gk /\
       menu_part g' = menu_part (fst (detect_swipe (Some t) g))).
Proof.
  split; [exact detect_swipe_text_part|].
  split; [exact handle_keyboard_touch_returns|].
  intros inp t g Hp Hm.
  destruct (poll_touch_spec inp g) as (b & gk & Hk & Hmenu & H).
  rewrite Hp in Hk, H. rewrite Hm in Hk. cbn [Z.eqb Pos.eqb] in Hk.
  exists b, gk. eexists _, _.
  split; [exact Hk|]. split; [exact H|].
  split; [apply detect_swipe_text_part|].
  apply detect_swipe_menu_part. exact Hmenu.
Qed.

(** The globals on the search screen with the finger resting at (100, 60). *)
Definition on_search_screen : globals :=
  set_last_touch (Some 100) (Some 60) (set_menu 3 0 initial_globals).

Lemma handlers_have_disjoint_footprints_witness :
  exists g' es,
    poll_touch true (mk_input (Some (mk_touch 100 180 1)) 0 false false)
      on_search_screen = Ok (g', es) /\
    text_part g' = ("", "ABC", None, 0, 0) /\
    menu_part g' = (4, 0, None, None).
Proof.
  destruct handlers_have_disjoint_footprints as (_ & _ & H).
  destruct (H (mk_input (Some (mk_touch 100 180 1)) 0 false false)
              (mk_touch 100 180 1) on_search_screen eq_refl eq_refl)
    as (b & gk & g' & es & Hk & Hp & Ht & Hm).
  exists g', es. split; [exact Hp|].
  vm_compute in Hk. injection Hk as _ <-.
  split; [exact Ht|exact Hm].
Defined.

(** ** Virtual time *)

(** No effect takes negative time. *)
Definition timed (es : list effect) : Prop :=
  Forall (fun e => 0 <= duration e) es.

Lemma elapsed_app (a b : list effect) :
  elapsed (a ++ b) = elapsed a + elapsed b.
Proof.
  induction a as [|e a IH]; [reflexivity|].
  cbn [app elapsed fold_right] in *. fold (elapsed (a ++ b)).
  fold (elapsed a). rewrite IH. lia.
Qed.

Lemma elapsed_nonneg (es : list effect) : timed es -> 0 <= elapsed es.
Proof.
  induction 1 as [|e es He _ IH]; [reflexivity|].
  cbn [elapsed fold_right]. fold (elapsed es). lia.
Qed.

Lemma timed_app (a b : list effect) : timed a -> timed b -> timed (a ++ b).
Proof. intros Ha Hb. apply Forall_app. split; assumption. Qed.

Lemma timeline_app (a b : list effect) :
  forall t0,
    timeline t0 (a ++ b) = timeline t0 a ++ timeline (t0 + elapsed a) b.
Proof.
  induction a as [|e a IH]; intros t0.
  - cbn. rewrite Z.add_0_r. reflexivity.
  - cbn [app timeline elapsed fold_right]. fold (elapsed a).
    rewrite IH. rewrite Z.add_assoc. reflexivity.
Qed.

(** Every effect of a log starts within the span of the log. *)
Lemma timeline_bounds (es : list effect) :
  timed es ->
  forall t0 t e, In (t, e) (timeline t0 es) -> t0 <= t <= t0 + elapsed es.
Proof.
  induction 1 as [|e0 es He Hes IH]; intros t0 t e Hin; [contradiction|].
  pose proof (elapsed_nonneg es Hes) as Hpos.
  cbn [timeline elapsed fold_right] in *. fold (elapsed es).
  destruct Hin as [Heq|Hin].
  - injection Heq as <- _. lia.
  - apply IH in Hin. lia.
Qed.

(** ** The main loop: logs and totality *)

(** One iteration with touch enabled: the poll and what the keyboard drew,
    then the cooldown if the swipe fired, then the rest of the iteration. *)
Lemma tick_log (inp : tick_input) (ls : loop_state) :
  exists ls' head tail,
    tick true inp ls =
      Ok (ls',
          head
            ++ (if swipe_fires (polled inp) (globs ls)
                then [SleepMs 300] else [])
            ++ tail) /\
    In (GetTouch (polled inp)) head /\
    elapsed head = 0 /\
    timed head /\
    timed tail.
Proof.
  destruct (poll_touch_spec inp (globs ls)) as (b & gk & _ & Hm & H).
  unfold tick. rewrite H. cbn [bind fst snd].
  rewrite detect_swipe_effects, (swipe_fires_menu_part _ _ _ Hm).
  eexists _, (GetTouch (polled inp)
                :: (if b then [DisplayFill; DrawSearchScreen] else [])), _.
  split.
  - cbn [app]. rewrite <- !app_assoc. reflexivity.
  - split; [left; reflexivity|].
    split; [destruct b; reflexivity|].
    split; [destruct b; repeat constructor; cbn; lia|].
    unfold refresh_data.
    repeat apply timed_app;
      repeat match goal with
             | |- context [if ?c then _ else _] => destruct c
             end;
      repeat constructor; cbn; lia.
Qed.

Lemma tick_returns (inp : tick_input) (ls : loop_state) :
  exists ls' es, tick true inp ls = Ok (ls', es) /\ timed es.
Proof.
  destruct (tick_log inp ls) as (ls' & head & tail & H & _ & _ & Hh & Ht).
  eexists _, _. split; [exact H|].
  repeat apply timed_app; try assumption.
  destruct (swipe_fires _ _); repeat constructor. cbn. lia.
Qed.

Lemma run_returns (inps : list tick_input) :
  forall ls, exists ls' es, run true inps ls = Ok (ls', es) /\ timed es.
Proof.
  induction inps as [|inp inps IH]; intros ls.
  - exists ls, []. split; [reflexivity|constructor].
  - destruct (tick_returns inp ls) as (ls1 & es1 & H1 & T1).
    destruct (IH ls1) as (ls2 & es2 & H2 & T2).
    exists ls2, (es1 ++ es2). cbn [run]. rewrite H1. cbn [bind fst snd].
    rewrite H2. cbn [bind fst snd].
    split; [reflexivity|apply timed_app; assumption].
Qed.

Lemma run_app (pre post : list tick_input) :
  forall ls ls1 es1 ls2 es2,
    run true pre ls = Ok (ls1, es1) ->
    run true post ls1 = Ok (ls2, es2) ->
    run true (pre ++ post) ls = Ok (ls2, es1 ++ es2).
Proof.
  induction pre as [|inp pre IH]; intros ls ls1 es1 ls2 es2 H1 H2.
  - cbn in H1. injection H1 as <- <-. exact H2.
  - cbn [app run] in *.
    destruct (tick true inp ls) as [[lsa esa]|e]; [|discriminate H1].
    cbn [bind fst snd] in *.
    destruct (run true pre lsa) as [[lsb esb]|e] eqn:Hpre; [|discriminate H1].
    cbn [bind fst snd] in H1. injection H1 as <- <-.
    rewrite (IH lsa lsb esb ls2 es2 Hpre H2). cbn [bind fst snd].
    rewrite app_assoc. reflexivity.
Qed.

(** ** The cooldown *)

(** C8.  Virtual time advances only while the program sleeps.  Let the loop
    run with touch enabled over any inputs, and let the swipe fire in some
    iteration, which starts at instant [T] (the time slept so far).  Then the
    loop returns a log that splits around that iteration's 300 ms sleep: the
    part before it, which ends with that iteration's poll (and keyboard
    redraw, if any), takes no longer than [T]; the sleep starts at [T]; and
    everything after it (the rest of that iteration, every later poll,
    keyboard redraw and screen redraw) starts at [T + 300] or later.  So no
    effect of the program starts strictly inside the cooldown. *)
Theorem cooldown_stalls_loop
  (pre post : list tick_input) (inp : tick_input)
  (ls0 ls1 : loop_state) (log1 : list effect) :
  run true pre ls0 = Ok (ls1, log1) ->
  swipe_fires (polled inp) (globs ls1) = true ->
  exists ls2 head after,
    run true (pre ++ inp :: post) ls0
      = Ok (ls2, (log1 ++ head) ++ SleepMs 300 :: after) /\
    In (GetTouch (polled inp)) head /\
    elapsed (log1 ++ head) = elapsed log1 /\
    timeline 0 ((log1 ++ head) ++ SleepMs 300 :: after)
      = timeline 0 (log1 ++ head)
          ++ (elapsed log1, SleepMs 300)
          :: timeline (elapsed log1 + 300) after /\
    (forall t e, In (t, e) (timeline 0 (log1 ++ head)) -> t <= elapsed log1) /\
    (forall t e, In (t, e) (timeline (elapsed log1 + 300) after) ->
                 elapsed log1 + 300 <= t) /\
    (forall t e,
       In (t, e) (timeline 0 ((log1 ++ head) ++ SleepMs 300 :: after)) ->
       ~ (elapsed log1 < t < elapsed log1 + 300)).
Proof.
  intros Hpre Hfire.
  destruct (run_returns pre ls0) as (ls1' & log1' & Hpre' & T1).
  rewrite Hpre in Hpre'. injection Hpre' as <- <-.
  destruct (tick_log inp ls1) as (lsa & head & tail & Ht & Hin & Eh & Th & Tt).
  rewrite Hfire in Ht.
  destruct (run_returns post lsa) as (ls2 & log2 & Hpost & T2).
  assert (run true (inp :: post) ls1
          = Ok (ls2, (head ++ [SleepMs 300] ++ tail) ++ log2)) as Hrest.
  { cbn [run]. rewrite Ht. cbn [bind fst snd]. rewrite Hpost. reflexivity. }
  pose proof (run_app pre (inp :: post) ls0 ls1 log1 ls2 _ Hpre Hrest) as Hall.
  assert (log1 ++ (head ++ [SleepMs 300] ++ tail) ++ log2
          = (log1 ++ head) ++ SleepMs 300 :: (tail ++ log2)) as Hshape.
  { cbn [app]. rewrite <- !app_assoc. reflexivity. }
  rewrite Hshape in Hall.
  assert (elapsed (log1 ++ head) = elapsed log1) as Hel
    by (rewrite elapsed_app, Eh; lia).
  assert (timeline 0 ((log1 ++ head) ++ SleepMs 300 :: (tail ++ log2))
          = timeline 0 (log1 ++ head)
              ++ (elapsed log1, SleepMs 300)
              :: timeline (elapsed log1 + 300) (tail ++ log2)) as Htl.
  { rewrite timeline_app, Hel. reflexivity. }
  assert (forall t e, In (t, e) (timeline 0 (log1 ++ head)) ->
                      t <= elapsed log1) as Hbefore.
  { intros t e Hi.
    apply (timeline_bounds (log1 ++ head)) in Hi;
      [lia|apply timed_app; assumption]. }
  assert (forall t e, In (t, e) (timeline (elapsed log1 + 300) (tail ++ log2))
                      -> elapsed log1 + 300 <= t) as Hafter.
  { intros t e Hi.
    apply (timeline_bounds (tail ++ log2)) in Hi;
      [lia|apply timed_app; assumption]. }
  exists ls2, head, (tail ++ log2).
  do 6 (split; [assumption|]).
  intros t e Hi. rewrite Htl in Hi.
  apply in_app_or in Hi. destruct Hi as [Hi|[Hi|Hi]].
  - apply Hbefore in Hi. lia.
  - injection Hi as <- _. lia.
  - apply Hafter in Hi. lia.
Qed.

(** Three iterations: a touch at (120, 100), a touch at (120, 200), a lift. *)
Definition swipe_down_inputs : list tick_input :=
  [ mk_input (Some (mk_touch 120 100 1)) 0 false false;
    mk_input (Some (mk_touch 120 200 1)) 100 false false;
    mk_input None 500 false false ].

Lemma cooldown_stalls_loop_witness :
  exists ls2 log,
    run true swipe_down_inputs initial_loop_state = Ok (ls2, log) /\
    In (100, SleepMs 300) (timeline 0 log) /\
    forall t e, In (t, e) (timeline 0 log) -> ~ (100 < t < 400).
Proof.
  destruct (cooldown_stalls_loop
              [mk_input (Some (mk_touch 120 100 1)) 0 false false]
              [mk_input None 500 false false]
              (mk_input (Some (mk_touch 120 200 1)) 100 false false)
              initial_loop_state
              (mk_loop (set_last_touch (Some 120) (Some 100) initial_globals)
                 1 0 0)
              [GetTouch (Some (mk_touch 120 100 1)); DisplayFill;
               DrawScreen 0 0; SleepMs 100])
    as (ls2 & head & after & Hrun & _ & _ & Htl & _ & _ & Hgap).
  - reflexivity.
  - reflexivity.
  - eexists _, _. split; [exact Hrun|].
    split; [|exact Hgap].
    rewrite Htl. apply in_or_app. right. left. reflexivity.
Defined.

(** * Further code of boot.py *)

(** ** The touch driver *)

(** [CST816S.get_touch] on the outcome of [i2c.readfrom_mem]: the bytes
    read, or [None] when the read raised.  Whatever is raised inside the
    [try] (a failed read, an index past the end of the data) gives [None]. *)
Definition get_touch_body (data : list Z) : result (option touch_data) :=
  d2 <- list_index data 2 ;;
  let touch_points := Z.land d2 15 in
  if touch_points =? 0 then Ok None
  else
    d3 <- list_index data 3 ;;
    d4 <- list_index data 4 ;;
    let x := Z.lor (Z.shiftl (Z.land d3 15) 8) d4 in
    d5 <- list_index data 5 ;;
    d6 <- list_index data 6 ;;
    let y := Z.lor (Z.shiftl (Z.land d5 15) 8) d6 in
    Ok (Some (mk_touch x y touch_points)).

Definition get_touch (read : option (list Z)) : option touch_data :=
  match read with
  | None => None
  | Some data =>
    match get_touch_body data with
    | Ok r => r
    | Raise _ => None
    end
  end.

(** The elements of a [bytes] object. *)
Definition is_bytes (data : list Z) : Prop :=
  Forall (fun b => 0 <= b < 256) data.

(** ** Text centring *)

Definition WIDTH : Z := 240.

(** [center_x(text, font_width)]; the default [font_width] is 16. *)
Definition center_x (text : string) (font_width : Z) : Z :=
  (WIDTH - str_len text * font_width) / 2.

(** ** Feeding samples to the swipe detector *)

(** [detect_swipe] called on each sample in turn. *)
Fixpoint feed (tds : list (option touch_data)) (g : globals)
  : globals * list effect :=
  match tds with
  | [] => (g, [])
  | td :: rest =>
    let r := detect_swipe td g in
    let r' := feed rest (fst r) in
    (fst r', snd r ++ snd r')
  end.

(** A move from the anchor [(lx, ly)] to [t] that meets neither threshold. *)
Definition quiet_step (lx ly : Z) (t : touch_data) : Prop :=
  (Z.abs (touch_y t - ly) <= 50
   \/ Z.abs (touch_y t - ly) <= Z.abs (touch_x t - lx)) /\
  (Z.abs (touch_x t - lx) <= 40
   \/ Z.abs (touch_x t - lx) <= Z.abs (touch_y t - ly)).

(** A path on which every move from one sample to the next is quiet. *)
Fixpoint quiet_path (lx ly : Z) (ts : list touch_data) : Prop :=
  match ts with
  | [] => True
  | t :: rest =>
    quiet_step lx ly t /\ quiet_path (touch_x t) (touch_y t) rest
  end.

(** ** The touch driver: decoding *)

Lemma land_15_range (d : Z) : 0 <= Z.land d 15 < 16.
Proof.
  change 15 with (Z.ones 4). rewrite Z.land_ones by lia.
  apply Z.mod_pos_bound. reflexivity.
Qed.

Lemma lor_shiftl_8 (h l : Z) :
  0 <= l < 256 -> Z.lor (Z.shiftl h 8) l = h * 256 + l.
Proof.
  intros Hl.
  assert (Z.land (Z.shiftl h 8) l = 0) as Hdisj.
  { apply Z.bits_inj'. intros n Hn.
    rewrite Z.land_spec, Z.bits_0.
    destruct (Z.ltb_spec n 8).
    - rewrite Z.shiftl_spec_low by assumption. reflexivity.
    - assert (Z.testbit l n = false) as ->; [|apply andb_false_r].
      destruct (Z.eqb_spec l 0) as [->|Hnz]; [apply Z.bits_0|].
      apply Z.bits_above_log2; [lia|].
      assert (Z.log2 l < 8); [|lia].
      apply Z.log2_lt_pow2; [lia|]. change (2 ^ 8) with 256. lia. }
  rewrite <- Z.lxor_lor by exact Hdisj.
  rewrite <- Z.add_nocarry_lxor by exact Hdisj.
  rewrite Z.shiftl_mul_pow2 by lia. reflexivity.
Qed.

Lemma list_index_Forall {A} (P : A -> Prop) (l : list A) (i : Z) (a : A) :
  Forall P l -> list_index l i = Ok a -> P a.
Proof.
  intros HP. unfold list_index.
  destruct ((if i <? 0 then i + len l else i) <? 0); [discriminate|].
  destruct (nth_error l _) as [b|] eqn:E; [|discriminate].
  intros H. injection H as <-.
  rewrite Forall_forall in HP. apply HP. eapply nth_error_In. exact E.
Qed.

(** X1.  Whatever bytes the controller returns, a sample reported by
    [get_touch] has both coordinates in 0..4095 and a point count in
    1..15. *)
Theorem get_touch_sample_range (data : list Z) (t : touch_data) :
  is_bytes data ->
  get_touch (Some data) = Some t ->
  0 <= touch_x t < 4096 /\
  0 <= touch_y t < 4096 /\
  1 <= touch_points t <= 15.
Proof.
  intros Hb. unfold get_touch, get_touch_body.
  destruct (list_index data 2) as [d2|] eqn:E2; unfold bind; cbv beta iota zeta; [|discriminate].
  pose proof (land_15_range d2) as Hp.
  destruct (Z.eqb_spec (Z.land d2 15) 0) as [|Hnz]; [discriminate|].
  destruct (list_index data 3) as [d3|] eqn:E3; unfold bind; cbv beta iota zeta; [|discriminate].
  destruct (list_index data 4) as [d4|] eqn:E4; unfold bind; cbv beta iota zeta; [|discriminate].
  destruct (list_index data 5) as [d5|] eqn:E5; unfold bind; cbv beta iota zeta; [|discriminate].
  destruct (list_index data 6) as [d6|] eqn:E6; unfold bind; cbv beta iota zeta; [|discriminate].
  intros H.
  replace t with (mk_touch (Z.lor (Z.shiftl (Z.land d3 15) 8) d4)
                    (Z.lor (Z.shiftl (Z.land d5 15) 8) d6) (Z.land d2 15))
    by congruence.
  cbv [touch_x touch_y touch_points].
  pose proof (list_index_Forall _ _ _ _ Hb E4) as H4.
  pose proof (list_index_Forall _ _ _ _ Hb E6) as H6.
  cbv beta in H4, H6.
  rewrite !lor_shiftl_8 by assumption.
  pose proof (land_15_range d3). pose proof (land_15_range d5). lia.
Qed.

Lemma get_touch_sample_range_witness :
  get_touch (Some [0; 0; 1; 64 + 1; 44; 128; 200]) = Some (mk_touch 300 200 1)
  /\ 0 <= 300 < 4096.
Proof.
  split; [reflexivity|].
  apply (get_touch_sample_range [0; 0; 1; 64 + 1; 44; 128; 200]
           (mk_touch 300 200 1)).
  - repeat constructor; cbn; lia.
  - reflexivity.
Defined.

Lemma land_15_low_nibble (f v : Z) :
  0 <= v < 16 -> Z.land (f * 16 + v) 15 = v.
Proof.
  intros Hv. change 15 with (Z.ones 4). rewrite Z.land_ones by lia.
  change (2 ^ 4) with 16. rewrite Z.add_comm, Z.mod_add by lia.
  apply Z.mod_small. exact Hv.
Qed.

(** X2.  [get_touch] decodes a seven-byte frame whose byte 2 carries the
    point count in its low nibble and whose bytes 3..4 and 5..6 carry the
    12-bit coordinates, high nibble first; the upper nibbles of bytes 2, 3
    and 5 (the flag bits [f2], [fx], [fy]) and bytes 0 and 1 are ignored. *)
Theorem get_touch_decodes_frame (b0 b1 f2 fx fy : Z) (t : touch_data) :
  0 <= touch_x t < 4096 ->
  0 <= touch_y t < 4096 ->
  1 <= touch_points t <= 15 ->
  get_touch
    (Some [ b0; b1; f2 * 16 + touch_points t;
            fx * 16 + touch_x t / 256; touch_x t mod 256;
            fy * 16 + touch_y t / 256; touch_y t mod 256 ])
  = Some t.
Proof.
  intros Hx Hy Hp. destruct t as [x y p]. cbn [touch_x touch_y touch_points] in *.
  unfold get_touch, get_touch_body.
  change (list_index [b0; b1; f2 * 16 + p; fx * 16 + x / 256; x mod 256;
                      fy * 16 + y / 256; y mod 256] 2) with (Ok (f2 * 16 + p)).
  change (list_index [b0; b1; f2 * 16 + p; fx * 16 + x / 256; x mod 256;
                      fy * 16 + y / 256; y mod 256] 3)
    with (Ok (fx * 16 + x / 256)).
  change (list_index [b0; b1; f2 * 16 + p; fx * 16 + x / 256; x mod 256;
                      fy * 16 + y / 256; y mod 256] 4) with (Ok (x mod 256)).
  change (list_index [b0; b1; f2 * 16 + p; fx * 16 + x / 256; x mod 256;
                      fy * 16 + y / 256; y mod 256] 5)
    with (Ok (fy * 16 + y / 256)).
  change (list_index [b0; b1; f2 * 16 + p; fx * 16 + x / 256; x mod 256;
                      fy * 16 + y / 256; y mod 256] 6) with (Ok (y mod 256)).
  unfold bind; cbv beta iota zeta.
  rewrite (land_15_low_nibble f2 p) by lia.
  destruct (Z.eqb_spec p 0); [lia|].
  assert (0 <= x / 256 < 16) as Hxh
    by (split; [apply Z.div_pos; lia|apply Z.div_lt_upper_bound; lia]).
  assert (0 <= y / 256 < 16) as Hyh
    by (split; [apply Z.div_pos; lia|apply Z.div_lt_upper_bound; lia]).
  rewrite (land_15_low_nibble fx (x / 256)) by exact Hxh.
  rewrite (land_15_low_nibble fy (y / 256)) by exact Hyh.
  rewrite !lor_shiftl_8 by (apply Z.mod_pos_bound; lia).
  rewrite (Z.mul_comm (x / 256)), (Z.mul_comm (y / 256)).
  rewrite <- !Z.div_mod by lia. reflexivity.
Qed.

Lemma get_touch_decodes_frame_witness :
  get_touch (Some [7; 5; 2 * 16 + 1; 8 * 16 + 239 / 256; 239 mod 256;
                   4 * 16 + 4095 / 256; 4095 mod 256])
  = Some (mk_touch 239 4095 1).
Proof.
  apply (get_touch_decodes_frame 7 5 2 8 4 (mk_touch 239 4095 1)); cbn; lia.
Defined.

(** X3.  [get_touch] reports no contact exactly when it should: when the
    read raised, when fewer than three bytes came back, when the low nibble
    of byte 2 is zero, or when a contact is flagged but the frame is shorter
    than seven bytes; on a full frame with a non-zero nibble it reports a
    sample. *)
Theorem get_touch_none_cases (read : option (list Z)) :
  get_touch read = None <->
  match read with
  | None => True
  | Some data =>
    match nth_error data 2 with
    | None => True
    | Some d2 => Z.land d2 15 = 0 \/ (length data < 7)%nat
    end
  end.
Proof.
  destruct read as [data|]; [|cbn; tauto].
  unfold get_touch, get_touch_body.
  destruct data as [|b0 [|b1 [|d2 rest]]]; try (cbn; tauto).
  change (list_index (b0 :: b1 :: d2 :: rest) 2) with (Ok d2).
  unfold bind; cbv beta iota zeta; cbn [nth_error].
  destruct (Z.eqb_spec (Z.land d2 15) 0) as [Hz|Hnz]; [tauto|].
  destruct rest as [|d3 [|d4 [|d5 [|d6 rest]]]];
    try (cbn; split; [intros _; right; lia|reflexivity]).
  cbn. split; [discriminate|]. intros [H|H]; [contradiction|lia].
Qed.

(** ** Text centring: margins *)

(** X4.  Text placed at [center_x] is centred to the pixel: the right margin
    equals the left one or exceeds it by one, and with the default font
    width 16 both are equal.  The left margin is negative, so that the text
    starts off screen, exactly when the text is wider than the display. *)
Theorem center_x_margins (text : string) (font_width : Z) :
  let left := center_x text font_width in
  let right := WIDTH - (left + str_len text * font_width) in
  (right = left \/ right = left + 1) /\
  (font_width = 16 -> right = left /\ left = 120 - 8 * str_len text) /\
  (left < 0 <-> WIDTH < str_len text * font_width).
Proof.
  unfold center_x, WIDTH. cbv zeta.
  set (w := str_len text * font_width).
  pose proof (Z.div_mod (240 - w) 2 ltac:(lia)) as Hd.
  pose proof (Z.mod_pos_bound (240 - w) 2 ltac:(lia)) as Hm.
  split; [lia|]. split; [|lia].
  intros ->. subst w.
  assert ((240 - str_len text * 16) / 2 = 120 - 8 * str_len text) as ->; [|lia].
  replace (240 - str_len text * 16) with ((120 - 8 * str_len text) * 2) by lia.
  apply Z.div_mul. lia.
Qed.

(** ** Swipe detection: lifts, quiet moves and round trips *)

Lemma detect_swipe_quiet (t : touch_data) (g : globals) (lx ly : Z) :
  last_touch_x g = Some lx ->
  last_touch_y g = Some ly ->
  quiet_step lx ly t ->
  detect_swipe (Some t) g =
    (set_last_touch (Some (touch_x t)) (Some (touch_y t)) g, []).
Proof.
  intros Hx Hy [Hv Hh]. unfold detect_swipe. rewrite Hx, Hy.
  destruct (is_vertical_swipe _ _) eqn:V;
    [apply is_vertical_swipe_spec in V; lia|].
  destruct (is_horizontal_swipe _ _) eqn:H;
    [apply is_horizontal_swipe_spec in H; lia|].
  reflexivity.
Qed.

Lemma last_cons_default {A} (a : A) (l : list A) (d d' : A) :
  last (a :: l) d = last (a :: l) d'.
Proof.
  revert a. induction l as [|b l IH]; intros a; [reflexivity|].
  cbn [last] in *. apply IH.
Qed.

Lemma feed_quiet_path (ts : list touch_data) :
  forall (g : globals) (lx ly : Z),
    last_touch_x g = Some lx ->
    last_touch_y g = Some ly ->
    quiet_path lx ly ts ->
    feed (map Some ts) g =
      (set_last_touch
         (Some (touch_x (last ts (mk_touch lx ly 0))))
         (Some (touch_y (last ts (mk_touch lx ly 0)))) g, []).
Proof.
  induction ts as [|t ts IH]; intros g lx ly Hx Hy Hq.
  - cbn. destruct g. cbn in *. subst. reflexivity.
  - destruct Hq as [Hstep Hrest]. cbn [map feed].
    rewrite (detect_swipe_quiet t g lx ly Hx Hy Hstep). cbn [fst snd app].
    rewrite (IH (set_last_touch (Some (touch_x t)) (Some (touch_y t)) g)
               (touch_x t) (touch_y t) eq_refl eq_refl Hrest).
    cbn [fst snd].
    destruct ts as [|t' ts]; [reflexivity|].
    change (last (t :: t' :: ts) (mk_touch lx ly 0))
      with (last (t' :: ts) (mk_touch lx ly 0)).
    rewrite (last_cons_default t' ts (mk_touch (touch_x t) (touch_y t) 0)
               (mk_touch lx ly 0)).
    reflexivity.
Qed.

(** X5.  A drag never navigates, however far it goes, as long as every move
    from one polled sample to the next stays within the thresholds (at most
    50 down or up unless the sideways part is at least as large, at most 40
    sideways unless the vertical part is at least as large): the detector
    follows the finger with its anchor, leaves the menu position alone and
    never sleeps.  This holds from a lifted finger, where the first sample
    only sets the anchor. *)
Theorem slow_drag_never_navigates
  (t0 : touch_data) (ts : list touch_data) (g : globals) :
  last_touch_x g = None ->
  quiet_path (touch_x t0) (touch_y t0) ts ->
  feed (map Some (t0 :: ts)) g =
    (set_last_touch (Some (touch_x (last ts t0)))
       (Some (touch_y (last ts t0))) g, []).
Proof.
  intros Hx Hq. cbn [map feed].
  rewrite (detect_swipe_anchor t0 g Hx). cbn [fst snd app].
  rewrite (feed_quiet_path ts
             (set_last_touch (Some (touch_x t0)) (Some (touch_y t0)) g)
             (touch_x t0) (touch_y t0) eq_refl eq_refl Hq).
  cbn [fst snd].
  destruct ts as [|t' ts]; [reflexivity|].
  rewrite (last_cons_default t' ts (mk_touch (touch_x t0) (touch_y t0) 0) t0).
  reflexivity.
Qed.

Lemma slow_drag_never_navigates_witness :
  feed (map Some [mk_touch 120 20 1; mk_touch 120 70 1; mk_touch 120 120 1;
                  mk_touch 120 170 1; mk_touch 120 220 1]) initial_globals
  = (set_last_touch (Some 120) (Some 220) initial_globals, []).
Proof.
  apply (slow_drag_never_navigates (mk_touch 120 20 1)
           [mk_touch 120 70 1; mk_touch 120 120 1; mk_touch 120 170 1;
            mk_touch 120 220 1] initial_globals).
  - reflexivity.
  - cbn. unfold quiet_step. cbn. lia.
Defined.

(** X6.  A polled lift starts a fresh gesture: after a [None] sample the next
    contact only sets the anchor, wherever it lands and wherever the finger
    was before, so it never navigates; and a second [None] sample changes
    nothing more than the first. *)
Theorem lift_starts_fresh_gesture (g : globals) (t : touch_data) :
  feed [None; Some t] g =
    (set_last_touch (Some (touch_x t)) (Some (touch_y t)) g, []) /\
  feed [None; None] g = feed [None] g /\
  feed [None] g = (set_last_touch None None g, []).
Proof.
  split; [|split; reflexivity].
  cbn [feed].
  change (detect_swipe None g)
    with (set_last_touch None None g, @nil effect).
  cbn [fst snd app].
  rewrite (detect_swipe_anchor t (set_last_touch None None g) eq_refl).
  reflexivity.
Qed.

Lemma mod5_round_trip (m : Z) :
  0 <= m < 5 ->
  ((m + 1) mod 5 - 1) mod 5 = m /\ ((m - 1) mod 5 + 1) mod 5 = m.
Proof.
  intros H.
  assert (m = 0 \/ m = 1 \/ m = 2 \/ m = 3 \/ m = 4) as [E|[E|[E|[E|E]]]] by lia;
    subst m; split; reflexivity.
Qed.

(** X7.  With [main_menu] in 0..4, a vertical swipe followed (after the new
    anchor that the next sample sets) by a vertical swipe in the opposite
    direction brings [main_menu] back to where it was; [sub_menu] ends at 0,
    and the two swipes cost two 300 ms sleeps. *)
Theorem opposite_vertical_swipes_return
  (g : globals) (lx ly : Z) (t1 t2 t3 : touch_data) :
  0 <= main_menu g < 5 ->
  last_touch_x g = Some lx ->
  last_touch_y g = Some ly ->
  Z.abs (touch_y t1 - ly) > 50 ->
  Z.abs (touch_y t1 - ly) > Z.abs (touch_x t1 - lx) ->
  Z.abs (touch_y t3 - touch_y t2) > 50 ->
  Z.abs (touch_y t3 - touch_y t2) > Z.abs (touch_x t3 - touch_x t2) ->
  (touch_y t1 - ly) * (touch_y t3 - touch_y t2) < 0 ->
  let r := feed [Some t1; Some t2; Some t3] g in
  main_menu (fst r) = main_menu g /\
  sub_menu (fst r) = 0 /\
  main_menu (fst (detect_swipe (Some t1) g)) <> main_menu g /\
  snd r = [SleepMs 300; SleepMs 300].
Proof.
  intros Hm Hx Hy H1 H1' H3 H3' Hopp.
  assert (is_vertical_swipe (touch_x t1 - lx) (touch_y t1 - ly) = true) as V1
    by (apply is_vertical_swipe_spec; auto).
  assert (is_vertical_swipe (touch_x t3 - touch_x t2) (touch_y t3 - touch_y t2)
          = true) as V3 by (apply is_vertical_swipe_spec; auto).
  cbv zeta. cbn [feed].
  rewrite (detect_swipe_vertical t1 g lx ly Hx Hy V1). cbn [fst snd].
  rewrite (detect_swipe_anchor t2) by reflexivity. cbn [fst snd].
  rewrite (detect_swipe_vertical t3 _ (touch_x t2) (touch_y t2))
    by (try reflexivity; exact V3).
  cbn [fst snd app main_menu sub_menu set_last_touch set_menu].
  destruct (mod5_round_trip (main_menu g) Hm) as [Hdu Hud].
  destruct (Z.gtb_spec (touch_y t1 - ly) 0);
    destruct (Z.gtb_spec (touch_y t3 - touch_y t2) 0); try nia.
  - repeat split; try assumption.
    assert (main_menu g = 0 \/ main_menu g = 1 \/ main_menu g = 2 \/
            main_menu g = 3 \/ main_menu g = 4) as [E|[E|[E|[E|E]]]] by lia;
      rewrite E; discriminate.
  - repeat split; try assumption.
    assert (main_menu g = 0 \/ main_menu g = 1 \/ main_menu g = 2 \/
            main_menu g = 3 \/ main_menu g = 4) as [E|[E|[E|[E|E]]]] by lia;
      rewrite E; discriminate.
Qed.

Lemma opposite_vertical_swipes_return_witness :
  let r := feed [Some (mk_touch 120 200 1); Some (mk_touch 120 180 1);
                 Some (mk_touch 110 60 1)]
             (set_last_touch (Some 120) (Some 100) (set_menu 4 0 initial_globals))
  in main_menu (fst r) = 4 /\ snd r = [SleepMs 300; SleepMs 300].
Proof.
  destruct (opposite_vertical_swipes_return
              (set_last_touch (Some 120) (Some 100)
                 (set_menu 4 0 initial_globals))
              120 100 (mk_touch 120 200 1) (mk_touch 120 180 1)
              (mk_touch 110 60 1)) as (Hm & _ & _ & Hs);
    try reflexivity; try (cbn; lia).
  split; [exact Hm|exact Hs].
Defined.

(** X8.  On the weather menu, with [sub_menu] 0 or 1, every horizontal swipe
    flips [sub_menu] between 0 and 1: left and right do the same, because
    stepping up and stepping down agree modulo 2. *)
Theorem weather_swipe_toggles
  (t : touch_data) (g : globals) (lx ly : Z) :
  main_menu g = 1 ->
  0 <= sub_menu g <= 1 ->
  last_touch_x g = Some lx ->
  last_touch_y g = Some ly ->
  Z.abs (touch_x t - lx) > 40 ->
  Z.abs (touch_x t - lx) > Z.abs (touch_y t - ly) ->
  sub_menu (fst (detect_swipe (Some t) g)) = 1 - sub_menu g /\
  main_menu (fst (detect_swipe (Some t) g)) = 1.
Proof.
  intros Hm Hs Hx Hy H40 Hdom.
  assert (is_horizontal_swipe (touch_x t - lx) (touch_y t - ly) = true) as Hh
    by (apply is_horizontal_swipe_spec; auto).
  rewrite (detect_swipe_horizontal t g lx ly Hx Hy Hh).
  cbn [fst main_menu sub_menu set_last_touch set_menu]. rewrite Hm.
  change (get_max_submenus 1) with 2. change (2 >? 1) with true.
  split; [|reflexivity].
  assert (sub_menu g = 0 \/ sub_menu g = 1) as [E|E] by lia; rewrite E;
    destruct (touch_x t - lx <? 0); reflexivity.
Qed.

Lemma weather_swipe_toggles_witness :
  sub_menu (fst (detect_swipe (Some (mk_touch 200 100 1))
                   (set_last_touch (Some 100) (Some 100)
                      (set_menu 1 0 initial_globals)))) = 1 /\
  sub_menu (fst (detect_swipe (Some (mk_touch 20 100 1))
                   (set_last_touch (Some 100) (Some 100)
                      (set_menu 1 0 initial_globals)))) = 1.
Proof.
  split.
  - apply (weather_swipe_toggles (mk_touch 200 100 1)
             (set_last_touch (Some 100) (Some 100)
                (set_menu 1 0 initial_globals)) 100 100);
      try reflexivity; cbn; lia.
  - apply (weather_swipe_toggles (mk_touch 20 100 1)
             (set_last_touch (Some 100) (Some 100)
                (set_menu 1 0 initial_globals)) 100 100);
      try reflexivity; cbn; lia.
Defined.

(** ** Keyboard: what holds in every reachable state *)

(** The characters of a Python string. *)
Definition chars (s : string) : list ascii := list_ascii_of_string s.

(** The characters the nine letter cells of the three layouts can type. *)
Definition typeableb (ch : ascii) : bool :=
  existsb (Ascii.eqb ch)
    (chars "abcdefghijklmnopqrstuvwxyz ABCDEFGHIJKLMNOPQRSTUVWXYZ123456789").

Definition buffer_typeable (g : globals) : Prop :=
  forallb typeableb (chars (search_text g)) = true.

(** The active key, when there is one, is a key of the current layout, the
    counter is an index into its candidates, and the buffer ends with the
    candidate the counter selects. *)
Definition keyboard_invariant (g : globals) : Prop :=
  (keyboard_mode g = "abc" \/ keyboard_mode g = "ABC"
   \/ keyboard_mode g = "123") /\
  match multitap_key g with
  | None => True
  | Some k =>
    exists idx cands c s,
      0 <= idx <= 8 /\
      list_index (dict_keys (current_keys g)) idx = Ok k /\
      dict_get (current_keys g) k = Ok cands /\
      0 <= multitap_count g < len cands /\
      list_index cands (multitap_count g) = Ok c /\
      search_text g = (s ++ c)%string
  end.

(** Taps on one pixel at the given times. *)
Fixpoint taps (x y : Z) (times : list Z) (g : globals) : result globals :=
  match times with
  | [] => Ok g
  | t :: rest =>
    r <- handle_keyboard_touch x y t g ;;
    taps x y rest (snd r)
  end.

(** Each time is less than 1000 ms after the one before. *)
Fixpoint close_times (t0 : Z) (ts : list Z) : Prop :=
  match ts with
  | [] => True
  | t :: rest => t - t0 < 1000 /\ close_times t rest
  end.

Lemma chars_app (a b : string) : chars (a ++ b) = chars a ++ chars b.
Proof.
  induction a as [|ch a IH]; [reflexivity|].
  cbn [String.append]. unfold chars in *.
  cbn [list_ascii_of_string app]. rewrite IH. reflexivity.
Qed.

Lemma forallb_chars_drop_last (p : ascii -> bool) (s : string) :
  forallb p (chars s) = true -> forallb p (chars (drop_last s)) = true.
Proof.
  induction s as [|ch s IH]; [auto|].
  cbn [chars list_ascii_of_string forallb]. intros H.
  apply andb_true_iff in H. destruct H as [Hc Hs].
  destruct s as [|ch' s]; [reflexivity|].
  cbn [drop_last chars list_ascii_of_string forallb].
  rewrite Hc. apply IH. exact Hs.
Qed.

(** Every candidate under a letter cell is one typeable character. *)
Lemma letter_cell_candidates (g : globals) (idx i : Z) (k c : string)
      (cands : list string) :
  0 <= idx <= 8 ->
  list_index (dict_keys (current_keys g)) idx = Ok k ->
  dict_get (current_keys g) k = Ok cands ->
  list_index cands i = Ok c ->
  (exists ch, c = String ch EmptyString) /\
  forallb typeableb (chars c) = true.
Proof.
  intros Hi Hk Hd Hc.
  assert (Forall (fun c => (exists ch, c = String ch EmptyString) /\
                           forallb typeableb (chars c) = true) cands) as Hall.
  { assert (idx = 0 \/ idx = 1 \/ idx = 2 \/ idx = 3 \/ idx = 4 \/
            idx = 5 \/ idx = 6 \/ idx = 7 \/ idx = 8) as Hcase by lia.
    unfold current_keys in Hk, Hd.
    destruct (String.eqb (keyboard_mode g) "abc");
      [|destruct (String.eqb (keyboard_mode g) "ABC")];
      repeat (destruct Hcase as [Hcase|Hcase];
              [subst idx; vm_compute in Hk; injection Hk as <-;
               vm_compute in Hd; injection Hd as <-;
               repeat constructor; eexists; reflexivity|]);
      subst idx; vm_compute in Hk; injection Hk as <-;
      vm_compute in Hd; injection Hd as <-;
      repeat constructor; eexists; reflexivity. }
  exact (list_index_Forall _ cands i c Hall Hc).
Qed.

Lemma keyboard_invariant_text_part (g g' : globals) :
  text_part g' = text_part g ->
  (keyboard_invariant g -> keyboard_invariant g') /\
  (buffer_typeable g -> buffer_typeable g').
Proof.
  unfold text_part. intros H. injection H as Ht Hm Hk Hc _.
  unfold keyboard_invariant, buffer_typeable, current_keys.
  rewrite Ht, Hm, Hk, Hc. tauto.
Qed.

(** One tap keeps both properties. *)
Lemma handle_keyboard_touch_keeps (x y current_time : Z) (g g' : globals)
      (b : bool) :
  handle_keyboard_touch x y current_time g = Ok (b, g') ->
  (keyboard_invariant g -> keyboard_invariant g') /\
  (buffer_typeable g -> buffer_typeable g').
Proof.
  intros H.
  destruct (tap_cases x y) as [Ho|[[Hr Hc]|[[Hr Hc]|[[Hr Hc]|[Hr Hc]]]]].
  - rewrite tap_outside_grid in H by exact Ho. injection H as _ <-. tauto.
  - rewrite tap_backspace in H by assumption. injection H as _ <-.
    destruct (remove_last_char_rest g) as (_ & Hm & _).
    split.
    + intros [Hmode _]. split; [|exact I].
      cbn [keyboard_mode set_multitap_key]. rewrite Hm. exact Hmode.
    + unfold buffer_typeable. cbn [search_text set_multitap_key].
      rewrite remove_last_char_text. apply forallb_chars_drop_last.
  - rewrite tap_mode_toggle in H by assumption. injection H as _ <-.
    split; [|auto].
    intros _. split; [|exact I]. cbn [keyboard_mode set_multitap_key
      set_keyboard_mode].
    destruct (String.eqb (keyboard_mode g) "abc"); [auto|].
    destruct (String.eqb (keyboard_mode g) "ABC"); auto.
  - rewrite tap_search_button in H by assumption. injection H as _ <-.
    split; [|auto]. intros [Hmode _]. split; [exact Hmode|exact I].
  - pose proof (col_of_range x) as Hc'.
    destruct (tap_letter_cell x y current_time g Hr Hc)
      as (k & cands & c & Hk & Hd & Hn & Ht).
    destruct (key_eqb (multitap_key g) k && _) eqn:E;
      destruct Ht as [Hcand Ht]; rewrite Ht in H; injection H as _ <-.
    + destruct (letter_cell_candidates g (row_of y * 3 + col_of x)
                  ((multitap_count g + 1) mod len cands) k c cands
                  ltac:(lia) Hk Hd Hcand) as [_ Hty].
      destruct (remove_last_char_rest
                  (set_multitap_count ((multitap_count g + 1) mod len cands) g))
        as (_ & Hm & Hkey & Hcnt & _).
      apply andb_true_iff in E. destruct E as [E _].
      destruct (multitap_key g) as [k0|] eqn:K; [|discriminate E].
      cbn [key_eqb] in E. apply String.eqb_eq in E. subst k0.
      split.
      * intros [Hmode _]. split; [cbn; rewrite Hm; exact Hmode|].
        cbn [multitap_key set_multitap_time set_search_text].
        rewrite Hkey. cbn [multitap_key set_multitap_count]. rewrite K.
        exists (row_of y * 3 + col_of x), cands, c,
          (search_text (remove_last_char g)).
        unfold current_keys.
        cbn [keyboard_mode multitap_count search_text set_multitap_time
             set_search_text].
        rewrite Hm, Hcnt. cbn [keyboard_mode multitap_count set_multitap_count].
        fold (current_keys g).
        repeat split; try assumption; try lia;
          apply Z.mod_pos_bound; lia.
      * unfold buffer_typeable. cbn [search_text set_multitap_time
          set_search_text].
        rewrite chars_app, forallb_app, remove_last_char_text, Hty.
        intros Hb. rewrite (forallb_chars_drop_last _ _ Hb). reflexivity.
    + destruct (letter_cell_candidates g (row_of y * 3 + col_of x) 0
                  k c cands ltac:(lia) Hk Hd Hcand) as [_ Hty].
      split.
      * intros [Hmode _]. split; [exact Hmode|].
        cbn [multitap_key set_multitap_time set_search_text set_multitap_count
             set_multitap_key].
        exists (row_of y * 3 + col_of x), cands, c, (search_text g).
        unfold current_keys.
        cbn [keyboard_mode multitap_count search_text set_multitap_time
             set_search_text set_multitap_count set_multitap_key].
        fold (current_keys g).
        repeat split; try assumption; lia.
      * unfold buffer_typeable. cbn [search_text set_multitap_time
          set_search_text].
        rewrite chars_app, forallb_app, Hty. intros ->. reflexivity.
Qed.

Lemma do_call_keeps (c : call) (g g' : globals) :
  do_call c g = Ok g' ->
  (keyboard_invariant g -> keyboard_invariant g') /\
  (buffer_typeable g -> buffer_typeable g').
Proof.
  destruct c as [td|x y t]; cbn [do_call].
  - intros H. injection H as <-.
    apply keyboard_invariant_text_part, detect_swipe_text_part.
  - destruct (handle_keyboard_touch x y t g) as [[b g1]|e] eqn:E;
      [|discriminate].
    cbn [bind snd]. intros H. injection H as <-.
    exact (handle_keyboard_touch_keeps x y t g g1 b E).
Qed.

(** A property kept by every call holds after each call of a sequence. *)
Lemma states_after_Forall (P : globals -> Prop) :
  (forall c g g', do_call c g = Ok g' -> P g -> P g') ->
  forall cs g gs, P g -> states_after cs g = Ok gs -> Forall P gs.
Proof.
  intros Hstep. induction cs as [|c cs IH]; intros g gs Hg H.
  - cbn in H. injection H as <-. constructor.
  - cbn [states_after] in H.
    destruct (do_call c g) as [g1|e] eqn:E1; [|discriminate H].
    cbn [bind] in H.
    destruct (states_after cs g1) as [gs1|e] eqn:E2; [|discriminate H].
    cbn [bind] in H. injection H as <-.
    pose proof (Hstep c g g1 E1 Hg) as Hg1.
    constructor; [exact Hg1|]. exact (IH g1 gs1 Hg1 E2).
Qed.

(** X9.  After every call of any sequence of swipe-detector and keyboard
    calls from the start-up globals: the keyboard mode is one of "abc",
    "ABC", "123"; and whenever a multitap key is active, it is the key of
    one of the nine letter cells of the current layout, the multitap counter
    is a valid index into that key's candidates, and the buffer ends with
    the candidate at that index. *)
Theorem keyboard_invariant_after_every_call (cs : list call) :
  exists gs,
    states_after cs initial_globals = Ok gs /\
    Forall keyboard_invariant gs.
Proof.
  destruct (states_after_invariant cs initial_globals initial_menu_invariant)
    as (gs & H & _ & _).
  exists gs. split; [exact H|].
  apply (states_after_Forall keyboard_invariant) with (cs := cs)
                                                      (g := initial_globals).
  - intros c g g' Hc. apply (do_call_keeps c g g' Hc).
  - split; [auto|exact I].
  - exact H.
Qed.

(** X10.  After every call of any sequence of swipe-detector and keyboard
    calls from the start-up globals, the buffer holds only letters, the
    digits 1 to 9 and spaces; in particular "0", "." and "@", although the
    numeric layout lists them, never get into the buffer. *)
Theorem buffer_never_holds_zero_dot_at (cs : list call) :
  exists gs,
    states_after cs initial_globals = Ok gs /\
    Forall (fun g =>
              forallb typeableb (chars (search_text g)) = true /\
              ~ In "0"%char (chars (search_text g)) /\
              ~ In "."%char (chars (search_text g)) /\
              ~ In "@"%char (chars (search_text g))) gs.
Proof.
  destruct (states_after_invariant cs initial_globals initial_menu_invariant)
    as (gs & H & _ & _).
  exists gs. split; [exact H|].
  assert (Forall buffer_typeable gs) as Hall.
  { apply (states_after_Forall buffer_typeable) with (cs := cs)
                                                     (g := initial_globals).
    - intros c g g' Hc. apply (do_call_keeps c g g' Hc).
    - reflexivity.
    - exact H. }
  eapply Forall_impl; [|exact Hall].
  intros g Hg. unfold buffer_typeable in Hg.
  split; [exact Hg|].
  rewrite forallb_forall in Hg.
  repeat split; intros Hin; apply Hg in Hin; discriminate Hin.
Qed.

(** ** Keyboard: a burst of taps on one letter cell *)

Lemma len_cons {A} (a : A) (l : list A) : len (a :: l) = len l + 1.
Proof. unfold len. cbn [List.length]. lia. Qed.

Lemma len_nonneg {A} (l : list A) : 0 <= len l.
Proof. unfold len. lia. Qed.

(** Repeated taps from a state in which the cell's key is active. *)
Lemma burst_from (x y : Z) (k : string) (cands : list string) (ts : list Z) :
  0 <= row_of y <= 2 -> 0 <= col_of x ->
  forall (h : globals) (s c : string),
    list_index (dict_keys (current_keys h)) (row_of y * 3 + col_of x) = Ok k ->
    dict_get (current_keys h) k = Ok cands ->
    multitap_key h = Some k ->
    0 <= multitap_count h < len cands ->
    list_index cands (multitap_count h) = Ok c ->
    search_text h = (s ++ c)%string ->
    close_times (multitap_time h) ts ->
    exists h' c',
      taps x y ts h = Ok h' /\
      list_index cands ((multitap_count h + len ts) mod len cands) = Ok c' /\
      search_text h' = (s ++ c')%string /\
      multitap_count h' = (multitap_count h + len ts) mod len cands /\
      multitap_key h' = Some k /\
      multitap_time h' = last ts (multitap_time h) /\
      keyboard_mode h' = keyboard_mode h /\
      menu_part h' = menu_part h.
Proof.
  intros Hr Hc. pose proof (col_of_range x) as Hc'.
  induction ts as [|t ts IH]; intros h s c Hk Hd Hkey Hcnt Hcand Htext Hclose.
  - exists h, c. cbn [taps last]. change (len (@nil Z)) with 0.
    rewrite Z.add_0_r, Z.mod_small by lia. repeat split; assumption.
  - destruct Hclose as [Hwin Hclose].
    destruct (tap_letter_cell x y t h Hr Hc)
      as (k1 & cands1 & c1 & Hk1 & Hd1 & _ & Ht).
    assert (k1 = k) as -> by congruence.
    assert (cands1 = cands) as -> by congruence.
    rewrite Hkey in Ht. cbn [key_eqb] in Ht. rewrite String.eqb_refl in Ht.
    destruct (Z.ltb_spec (t - multitap_time h) 1000); [|lia].
    cbn [andb] in Ht. cbv zeta in Ht. destruct Ht as [Hc1 Ht].
    destruct (letter_cell_candidates h (row_of y * 3 + col_of x)
                (multitap_count h) k c cands ltac:(lia) Hk Hd Hcand)
      as [[ch Hch] _].
    set (n := (multitap_count h + 1) mod len cands) in *.
    assert (0 <= n < len cands) as Hn by (apply Z.mod_pos_bound; lia).
    destruct (remove_last_char_rest (set_multitap_count n h))
      as (Hmp & Hm & Hky & Hct & _).
    set (h1 := set_multitap_time t
                 (set_search_text (search_text (remove_last_char h) ++ c1)
                    (remove_last_char (set_multitap_count n h)))) in *.
    assert (keyboard_mode h1 = keyboard_mode h) as Hmode1 by exact Hm.
    assert (current_keys h1 = current_keys h) as Hkeys1
      by (unfold current_keys; rewrite Hmode1; reflexivity).
    assert (search_text h1 = (s ++ c1)%string) as Htext1.
    { subst h1. cbn [search_text set_multitap_time set_search_text].
      rewrite remove_last_char_text, Htext, Hch, drop_last_snoc. reflexivity. }
    assert (multitap_count h1 = n) as Hcnt1 by exact Hct.
    assert (multitap_key h1 = Some k) as Hkey1
      by (subst h1; cbn [multitap_key set_multitap_time set_search_text];
          rewrite Hky; exact Hkey).
    destruct (IH h1 s c1) as (h' & c' & Htaps & Hcd' & Ht' & Hcnt' & Hk' & Htm'
                              & Hmd' & Hmp');
      try (rewrite ?Hkeys1, ?Hcnt1; assumption).
    exists h', c'. cbn [taps]. rewrite Ht. cbn [bind snd].
    assert ((multitap_count h + len (t :: ts)) mod len cands
            = (multitap_count h1 + len ts) mod len cands) as ->.
    { rewrite Hcnt1, len_cons. subst n.
      rewrite Z.add_mod_idemp_l by lia. f_equal. lia. }
    split; [exact Htaps|]. split; [exact Hcd'|]. split; [exact Ht'|].
    split; [exact Hcnt'|]. split; [exact Hk'|].
    split.
    { rewrite Htm'. destruct ts as [|z ts']; [reflexivity|].
      change (last (t :: z :: ts') (multitap_time h))
        with (last (z :: ts') (multitap_time h)).
      apply last_cons_default. }
    split; [congruence|].
    rewrite Hmp'. subst h1. exact Hmp.
Qed.

(** X11.  A burst of taps on one letter cell: when the first tap at [t0]
    starts a new character (another key, or none, was active, or the last
    press was 1000 ms or more before) and each further tap comes less than
    1000 ms after the one before it, then after the burst the buffer is the
    old buffer plus exactly one character, namely the cell's candidate
    number [m mod n], where [m] is the number of repeats and [n] the number
    of candidates.  So [n] repeats bring back the first candidate, and the
    burst writes nothing but the keyboard's own state. *)
Theorem multitap_burst (x y t0 : Z) (ts : list Z) (g : globals) :
  0 <= row_of y <= 2 ->
  0 <= col_of x ->
  (forall k,
     list_index (dict_keys (current_keys g)) (row_of y * 3 + col_of x) = Ok k ->
     key_eqb (multitap_key g) k && (t0 - multitap_time g <? 1000) = false) ->
  close_times t0 ts ->
  exists k cands c g',
    list_index (dict_keys (current_keys g)) (row_of y * 3 + col_of x) = Ok k /\
    dict_get (current_keys g) k = Ok cands /\
    list_index cands (len ts mod len cands) = Ok c /\
    taps x y (t0 :: ts) g = Ok g' /\
    search_text g' = (search_text g ++ c)%string /\
    multitap_key g' = Some k /\
    multitap_count g' = len ts mod len cands /\
    multitap_time g' = last ts t0 /\
    keyboard_mode g' = keyboard_mode g /\
    menu_part g' = menu_part g.
Proof.
  intros Hr Hc Hfresh Hclose.
  destruct (tap_letter_cell x y t0 g Hr Hc)
    as (k & cands & c0 & Hk & Hd & Hn & Ht).
  rewrite (Hfresh k Hk) in Ht. destruct Ht as [Hc0 Ht].
  set (g1 := set_multitap_time t0
               (set_search_text (search_text g ++ c0)
                  (set_multitap_count 0 (set_multitap_key (Some k) g)))) in *.
  destruct (burst_from x y k cands ts Hr Hc g1 (search_text g) c0)
    as (g' & c & Htaps & Hcand & Htext & Hcnt & Hkey & Htime & Hmode & Hmp);
    try assumption; try reflexivity.
  { cbn. lia. }
  exists k, cands, c, g'.
  cbn [taps]. rewrite Ht. cbn [bind snd].
  change (multitap_count g1) with 0 in Hcand, Hcnt.
  rewrite Z.add_0_l in Hcand, Hcnt.
  repeat split; assumption.
Qed.

Lemma multitap_burst_witness :
  exists g',
    taps 170 100 [0; 900; 1800; 2700; 3600] initial_globals = Ok g' /\
    search_text g' = "p" /\
    multitap_count g' = 0.
Proof.
  destruct (multitap_burst 170 100 0 [900; 1800; 2700; 3600] initial_globals)
    as (k & cands & c & g' & Hk & Hd & Hc & Ht & Htext & _ & Hcnt & _).
  - cbn. lia.
  - cbn. lia.
  - intros k _. reflexivity.
  - cbn. lia.
  - vm_compute in Hk. injection Hk as <-.
    vm_compute in Hd. injection Hd as <-.
    vm_compute in Hc. injection Hc as <-.
    exists g'. split; [exact Ht|]. split; [exact Htext|exact Hcnt].
Defined.

(** ** The main loop: what an iteration draws and never does *)

(** Effects of the touch block: the poll, the keyboard's redraw, the
    cooldown. *)
Definition touch_effect (e : effect) : Prop :=
  match e with
  | GetTouch _ | DisplayFill | DrawSearchScreen | SleepMs _ => True
  | _ => False
  end.

Lemma poll_touch_effects (touch_enabled : bool) (inp : tick_input)
      (g : globals) :
  exists g' es,
    poll_touch touch_enabled inp g = Ok (g', es) /\
    Forall touch_effect es /\
    (touch_enabled = false -> g' = g /\ es = []) /\
    (touch_enabled = false \/ main_menu g <> 3 \/ polled inp = None ->
     text_part g' = text_part g /\ ~ In DrawSearchScreen es).
Proof.
  destruct touch_enabled.
  - destruct (poll_touch_spec inp g) as (b & gk & Hk & _ & H).
    eexists _, _. split; [exact H|].
    split.
    { constructor; [exact I|]. apply Forall_app. split.
      - destruct b; repeat constructor.
      - rewrite detect_swipe_effects.
        destruct (swipe_fires _ _); repeat constructor. }
    split; [discriminate|].
    intros Hno. rewrite detect_swipe_text_part, detect_swipe_effects.
    assert (b = false /\ gk = g) as [-> ->].
    { destruct (polled inp) as [t|]; [|exact Hk].
      destruct (Z.eqb_spec (main_menu g) 3) as [E|_]; [|exact Hk].
      destruct Hno as [Hno|[Hno|Hno]]; congruence. }
    split; [reflexivity|].
    cbn [app]. destruct (swipe_fires _ _); cbn; intuition discriminate.
  - exists g, []. cbn. repeat split; auto; constructor.
Qed.

Lemma tick_shape (touch_enabled : bool) (inp : tick_input) (ls : loop_state) :
  exists g es,
    poll_touch touch_enabled inp (globs ls) = Ok (g, es) /\
    tick touch_enabled inp ls =
      Ok ({| globs := g; counter := counter ls + 1;
             last_main := main_menu g; last_sub := sub_menu g |},
          es ++ refresh_data inp (counter ls)
             ++ (if negb (main_menu g =? last_main ls)
                    || negb (sub_menu g =? last_sub ls)
                 then [DisplayFill] else [])
             ++ (if negb (main_menu g =? last_main ls)
                    || negb (sub_menu g =? last_sub ls)
                    || ((main_menu g =? 0) && (counter ls mod 10 =? 0))
                 then [DrawScreen (main_menu g) (sub_menu g)] else [])
             ++ [SleepMs 100]).
Proof.
  destruct (poll_touch_effects touch_enabled inp (globs ls))
    as (g & es & H & _).
  exists g, es. split; [exact H|].
  unfold tick. rewrite H. cbn [bind fst snd].
  destruct (Z.eqb_spec (main_menu g) (last_main ls)) as [Em|Em];
    destruct (Z.eqb_spec (sub_menu g) (last_sub ls)) as [Es|Es];
    cbn [negb orb]; try reflexivity.
  rewrite <- Em, <- Es. reflexivity.
Qed.

(** X12.  One iteration always returns, and when it ends the loop's record of
    the position last drawn equals the menu position.  If the position
    differs from the one last drawn, the iteration ends with a display
    clear, the drawing of the screen at the new position and the 100 ms
    sleep.  If it does not differ and the menu is not the time screen,
    nothing is drawn by [draw_screen] in that iteration. *)
Theorem tick_redraws_on_change
  (touch_enabled : bool) (inp : tick_input) (ls : loop_state) :
  exists ls' es,
    tick touch_enabled inp ls = Ok (ls', es) /\
    last_main ls' = main_menu (globs ls') /\
    last_sub ls' = sub_menu (globs ls') /\
    (main_menu (globs ls') <> last_main ls
     \/ sub_menu (globs ls') <> last_sub ls ->
     exists pre,
       es = pre ++ [DisplayFill;
                    DrawScreen (main_menu (globs ls')) (sub_menu (globs ls'));
                    SleepMs 100]) /\
    (main_menu (globs ls') = last_main ls ->
     sub_menu (globs ls') = last_sub ls ->
     main_menu (globs ls') <> 0 ->
     forall m s, ~ In (DrawScreen m s) es).
Proof.
  destruct (tick_shape touch_enabled inp ls) as (g & es & Hp & Ht).
  destruct (poll_touch_effects touch_enabled inp (globs ls))
    as (g0 & es0 & Hp0 & Hte & _).
  rewrite Hp in Hp0. injection Hp0 as <- <-.
  eexists _, _. split; [exact Ht|]. cbn [globs last_main last_sub].
  split; [reflexivity|]. split; [reflexivity|]. split.
  - intros Hch.
    assert (negb (main_menu g =? last_main ls)
            || negb (sub_menu g =? last_sub ls) = true) as ->.
    { destruct (Z.eqb_spec (main_menu g) (last_main ls));
        destruct (Z.eqb_spec (sub_menu g) (last_sub ls)); cbn; auto.
      destruct Hch; contradiction. }
    cbn [orb]. exists (es ++ refresh_data inp (counter ls)).
    rewrite <- app_assoc. reflexivity.
  - intros Em Es Hnz m s Hin.
    rewrite Em, Es, !Z.eqb_refl in Hin. cbn [negb orb] in Hin.
    rewrite <- Em in Hin.
    destruct (Z.eqb_spec (main_menu g) 0) as [|_]; [contradiction|].
    cbn [andb app] in Hin.
    apply in_app_or in Hin. destruct Hin as [Hin|Hin].
    + rewrite Forall_forall in Hte. apply Hte in Hin. exact Hin.
    + apply in_app_or in Hin. destruct Hin as [Hin|Hin].
      * unfold refresh_data in Hin.
        repeat match type of Hin with
               | context [if ?c then _ else _] => destruct c
               end; cbn in Hin; intuition discriminate.
      * cbn in Hin. intuition discriminate.
Qed.

Lemma refresh_data_weather (inp : tick_input) (c : Z) :
  In GetWeather (refresh_data inp c) <->
  c mod 6000 = 0 /\ c > 0 /\ wlan_connected_weather inp = true.
Proof.
  unfold refresh_data.
  destruct (Z.gtb_spec c 0); destruct (Z.eqb_spec (c mod 6000) 0);
    destruct (Z.eqb_spec (c mod 3000) 0);
    destruct (wlan_connected_weather inp);
    destruct (wlan_connected_crypto inp); cbn;
    intuition (try discriminate; try lia).
Qed.

Lemma refresh_data_crypto (inp : tick_input) (c : Z) :
  In GetCrypto (refresh_data inp c) <->
  c mod 3000 = 0 /\ c > 0 /\ wlan_connected_crypto inp = true.
Proof.
  unfold refresh_data.
  destruct (Z.gtb_spec c 0); destruct (Z.eqb_spec (c mod 6000) 0);
    destruct (Z.eqb_spec (c mod 3000) 0);
    destruct (wlan_connected_weather inp);
    destruct (wlan_connected_crypto inp); cbn;
    intuition (try discriminate; try lia).
Qed.

(** One iteration: the counter goes up by one, and the two refreshes happen
    exactly when their tests pass. *)
Lemma tick_refresh (touch_enabled : bool) (inp : tick_input)
      (ls ls' : loop_state) (es : list effect) :
  tick touch_enabled inp ls = Ok (ls', es) ->
  counter ls' = counter ls + 1 /\
  (In GetWeather es <->
   counter ls mod 6000 = 0 /\ counter ls > 0 /\
   wlan_connected_weather inp = true) /\
  (In GetCrypto es <->
   counter ls mod 3000 = 0 /\ counter ls > 0 /\
   wlan_connected_crypto inp = true).
Proof.
  destruct (tick_shape touch_enabled inp ls) as (g & es0 & Hp & Ht).
  destruct (poll_touch_effects touch_enabled inp (globs ls))
    as (g0 & es1 & Hp0 & Hte & _).
  rewrite Hp in Hp0. injection Hp0 as <- <-.
  rewrite Ht. intros H. injection H as <- <-.
  split; [reflexivity|].
  rewrite Forall_forall in Hte.
  rewrite <- refresh_data_weather, <- refresh_data_crypto.
  split; split; intros Hin.
  - apply in_app_or in Hin. destruct Hin as [Hin|Hin];
      [apply Hte in Hin; contradiction|].
    apply in_app_or in Hin. destruct Hin as [Hin|Hin]; [exact Hin|].
    repeat match type of Hin with
           | context [if ?c then _ else _] => destruct c
           end; cbn in Hin; intuition discriminate.
  - apply in_or_app. right. apply in_or_app. left. exact Hin.
  - apply in_app_or in Hin. destruct Hin as [Hin|Hin];
      [apply Hte in Hin; contradiction|].
    apply in_app_or in Hin. destruct Hin as [Hin|Hin]; [exact Hin|].
    repeat match type of Hin with
           | context [if ?c then _ else _] => destruct c
           end; cbn in Hin; intuition discriminate.
  - apply in_or_app. right. apply in_or_app. left. exact Hin.
Qed.

(** The iterations' refreshes, iteration by iteration. *)
Lemma run_refresh (touch_enabled : bool) (inps : list tick_input) :
  forall ls,
  exists ls' log,
    run touch_enabled inps ls = Ok (ls', log) /\
    counter ls' = counter ls + len inps /\
    (In GetWeather log <->
     exists i inp,
       nth_error inps i = Some inp /\
       (counter ls + Z.of_nat i) mod 6000 = 0 /\
       counter ls + Z.of_nat i > 0 /\
       wlan_connected_weather inp = true) /\
    (In GetCrypto log <->
     exists i inp,
       nth_error inps i = Some inp /\
       (counter ls + Z.of_nat i) mod 3000 = 0 /\
       counter ls + Z.of_nat i > 0 /\
       wlan_connected_crypto inp = true).
Proof.
  induction inps as [|inp inps IH]; intros ls.
  - exists ls, []. cbn [run]. split; [reflexivity|].
    change (len (@nil tick_input)) with 0.
    split; [lia|].
    split; (split; [intros []|intros (i & inp & H & _)]);
      destruct i; discriminate H.
  - destruct (tick_shape touch_enabled inp ls) as (g & es0 & _ & Ht).
    destruct (tick_refresh touch_enabled inp ls _ _ Ht) as (Hc & Hw & Hcr).
    destruct (IH {| globs := g; counter := counter ls + 1;
                    last_main := main_menu g; last_sub := sub_menu g |})
      as (ls' & log & Hrun & Hc' & Hw' & Hcr').
    cbn [counter] in Hc', Hw', Hcr'.
    eexists _, _. cbn [run]. rewrite Ht. cbn [bind fst snd].
    rewrite Hrun. cbn [bind fst snd].
    split; [reflexivity|].
    split; [rewrite Hc', len_cons; lia|].
    split.
    + rewrite in_app_iff, Hw, Hw'. split.
      * intros [H|(i & inp' & Hn & Hm & Hp & Hl)].
        -- exists 0%nat, inp. rewrite Z.add_0_r. tauto.
        -- exists (S i), inp'. cbn [nth_error].
           replace (counter ls + Z.of_nat (S i))
             with (counter ls + 1 + Z.of_nat i) by lia. tauto.
      * intros (i & inp' & Hn & Hm & Hp & Hl).
        destruct i as [|i].
        -- left. cbn in Hn. injection Hn as <-.
           rewrite Z.add_0_r in Hm, Hp. tauto.
        -- right. exists i, inp'. cbn [nth_error] in Hn.
           replace (counter ls + 1 + Z.of_nat i)
             with (counter ls + Z.of_nat (S i)) by lia. tauto.
    + rewrite in_app_iff, Hcr, Hcr'. split.
      * intros [H|(i & inp' & Hn & Hm & Hp & Hl)].
        -- exists 0%nat, inp. rewrite Z.add_0_r. tauto.
        -- exists (S i), inp'. cbn [nth_error].
           replace (counter ls + Z.of_nat (S i))
             with (counter ls + 1 + Z.of_nat i) by lia. tauto.
      * intros (i & inp' & Hn & Hm & Hp & Hl).
        destruct i as [|i].
        -- left. cbn in Hn. injection Hn as <-.
           rewrite Z.add_0_r in Hm, Hp. tauto.
        -- right. exists i, inp'. cbn [nth_error] in Hn.
           replace (counter ls + 1 + Z.of_nat i)
             with (counter ls + Z.of_nat (S i)) by lia. tauto.
Qed.

(** X13.  The loop refreshes its data on schedule.  Any number of iterations
    returns and leaves [counter] raised by their number.  [get_crypto()] is
    called in exactly those iterations whose [counter] is a positive
    multiple of 3000 and in which the link is up, [get_weather()] in exactly
    those whose [counter] is a positive multiple of 6000 and in which the
    link is up.  So from start-up, where [counter] is 0, nothing is
    refreshed during the first 3000 iterations. *)
Theorem loop_refresh_schedule
  (touch_enabled : bool) (inps : list tick_input) (ls : loop_state) :
  exists ls' log,
    run touch_enabled inps ls = Ok (ls', log) /\
    counter ls' = counter ls + len inps /\
    (In GetWeather log <->
     exists i inp,
       nth_error inps i = Some inp /\
       (counter ls + Z.of_nat i) mod 6000 = 0 /\
       counter ls + Z.of_nat i > 0 /\
       wlan_connected_weather inp = true) /\
    (In GetCrypto log <->
     exists i inp,
       nth_error inps i = Some inp /\
       (counter ls + Z.of_nat i) mod 3000 = 0 /\
       counter ls + Z.of_nat i > 0 /\
       wlan_connected_crypto inp = true) /\
    (counter ls = 0 -> len inps <= 3000 ->
     ~ In GetWeather log /\ ~ In GetCrypto log).
Proof.
  destruct (run_refresh touch_enabled inps ls)
    as (ls' & log & Hrun & Hc & Hw & Hcr).
  exists ls', log. do 4 (split; [assumption|]).
  intros Hz Hlen. rewrite Hw, Hcr, Hz.
  split; intros (i & inp & Hn & Hm & Hp & _);
    assert (i < length inps)%nat as Hi
      by (apply nth_error_Some; congruence);
    unfold len in Hlen; rewrite Z.add_0_l in Hm, Hp.
  - assert (Z.of_nat i mod 6000 = Z.of_nat i) as E
      by (apply Z.mod_small; lia). lia.
  - assert (Z.of_nat i mod 3000 = Z.of_nat i) as E
      by (apply Z.mod_small; lia). lia.
Qed.

Lemma loop_refresh_schedule_witness :
  exists ls' log,
    run true [mk_input None 0 false true; mk_input None 0 true true]
      (mk_loop initial_globals 3000 0 0) = Ok (ls', log) /\
    counter ls' = 3002 /\
    In GetCrypto log /\
    ~ In GetWeather log.
Proof.
  destruct (loop_refresh_schedule true
              [mk_input None 0 false true; mk_input None 0 true true]
              (mk_loop initial_globals 3000 0 0))
    as (ls' & log & Hrun & Hc & Hw & Hcr & _).
  exists ls', log. split; [exact Hrun|]. split; [exact Hc|]. split.
  - apply Hcr. exists 0%nat, (mk_input None 0 false true).
    repeat split.
  - intros Hin. apply Hw in Hin.
    destruct Hin as (i & inp & Hn & Hm & _).
    destruct i as [|[|i]]; cbn in Hn, Hm; try discriminate Hm.
    destruct i; discriminate Hn.
Defined.



(** ** The main loop: a finger held on the keyboard *)

Lemma remove_last_char_set_last_touch (a b : option Z) (g : globals) :
  remove_last_char (set_last_touch a b g)
  = set_last_touch a b (remove_last_char g).
Proof.
  unfold remove_last_char. cbn [search_text set_last_touch].
  destruct (_ >? 0); reflexivity.
Qed.

(** The keyboard does not look at the anchor. *)
Lemma handle_keyboard_touch_set_last_touch
      (x y current_time : Z) (a b : option Z) (g : globals) :
  handle_keyboard_touch x y current_time (set_last_touch a b g) =
  (r <- handle_keyboard_touch x y current_time g ;;
   Ok (fst r, set_last_touch a b (snd r))).
Proof.
  destruct (tap_cases x y) as [Ho|[[Hr Hc]|[[Hr Hc]|[[Hr Hc]|[Hr Hc]]]]].
  - rewrite !tap_outside_grid by exact Ho. reflexivity.
  - rewrite !tap_backspace by assumption. cbn [bind fst snd].
    rewrite remove_last_char_set_last_touch. reflexivity.
  - rewrite !tap_mode_toggle by assumption. reflexivity.
  - rewrite !tap_search_button by assumption. reflexivity.
  - destruct (tap_letter_cell x y current_time g Hr Hc)
      as (k & cands & c & Hk & Hd & _ & H).
    destruct (tap_letter_cell x y current_time (set_last_touch a b g) Hr Hc)
      as (k' & cands' & c' & Hk' & Hd' & _ & H').
    change (current_keys (set_last_touch a b g)) with (current_keys g)
      in Hk', Hd'.
    assert (k' = k) as -> by congruence.
    assert (cands' = cands) as -> by congruence.
    cbn [multitap_key multitap_time multitap_count search_text set_last_touch]
      in H'.
    destruct (key_eqb (multitap_key g) k && _);
      destruct H as [Hc1 H], H' as [Hc2 H'];
      assert (c' = c) as -> by congruence;
      rewrite H, H'; cbn [bind fst snd].
    + rewrite remove_last_char_set_last_touch.
      change (set_multitap_count ((multitap_count g + 1) mod len cands)
                (set_last_touch a b g))
        with (set_last_touch a b
                (set_multitap_count ((multitap_count g + 1) mod len cands) g)).
      rewrite remove_last_char_set_last_touch. reflexivity.
    + reflexivity.
Qed.

Lemma taps_set_last_touch (x y : Z) (a b : option Z) (ts : list Z) :
  forall g,
    taps x y ts (set_last_touch a b g) =
    (g' <- taps x y ts g ;; Ok (set_last_touch a b g')).
Proof.
  induction ts as [|t ts IH]; intros g; [reflexivity|].
  cbn [taps]. rewrite handle_keyboard_touch_set_last_touch.
  destruct (handle_keyboard_touch x y t g) as [[bb g1]|e]; [|reflexivity].
  cbn [bind fst snd]. apply IH.
Qed.

Lemma detect_swipe_no_fire (t : touch_data) (g : globals) :
  swipe_fires (Some t) g = false ->
  detect_swipe (Some t) g =
    (set_last_touch (Some (touch_x t)) (Some (touch_y t)) g, []).
Proof.
  unfold swipe_fires, detect_swipe.
  destruct (last_touch_x g) as [lx|]; [|reflexivity].
  destruct (last_touch_y g) as [ly|]; [|reflexivity].
  intros H. apply orb_false_iff in H. destruct H as [-> ->]. reflexivity.
Qed.

Lemma taps_returns (x y : Z) (ts : list Z) :
  forall g, exists g', taps x y ts g = Ok g' /\ menu_part g' = menu_part g.
Proof.
  induction ts as [|t ts IH]; intros g; [exists g; auto|].
  destruct (handle_keyboard_touch_returns x y t g) as (b & g1 & H & Hm).
  destruct (IH g1) as (g' & H' & Hm').
  exists g'. cbn [taps]. rewrite H. cbn [bind snd].
  split; [exact H'|congruence].
Qed.

(** X15.  The keyboard has no touch-down detection: on the search screen a
    finger that rests on one pixel is a new tap in every iteration.  If the
    first sample does not fire a swipe, then [n] iterations with the same
    contact leave the buffer, the mode and the multitap variables exactly as
    [n] calls of [handle_keyboard_touch] at the iterations' clock readings
    would, and the menu stays on the search screen with the anchor on the
    finger. *)
Theorem held_finger_repeats_taps (t : touch_data) (inps : list tick_input) :
  forall ls,
    main_menu (globs ls) = 3 ->
    swipe_fires (Some t) (globs ls) = false ->
    inps <> [] ->
    Forall (fun inp => polled inp = Some t) inps ->
    exists ls' log g',
      run true inps ls = Ok (ls', log) /\
      taps (touch_x t) (touch_y t) (map ticks_ms inps) (globs ls) = Ok g' /\
      globs ls' = set_last_touch (Some (touch_x t)) (Some (touch_y t)) g' /\
      main_menu (globs ls') = 3.
Proof.
  induction inps as [|inp inps IH]; intros ls Hm Hq Hne Hall; [congruence|].
  inversion Hall as [|? ? Hp Hrest]; subst.
  destruct (tick_shape true inp ls) as (g & es & Hpoll & Ht).
  destruct (poll_touch_spec inp (globs ls)) as (b & gk & Hk & Hmp & Hpoll').
  rewrite Hpoll in Hpoll'. injection Hpoll' as Hg Hes.
  rewrite Hp in Hk, Hg. rewrite Hm in Hk. cbn [Z.eqb Pos.eqb] in Hk.
  rewrite (detect_swipe_no_fire t gk) in Hg
    by (rewrite (swipe_fires_menu_part _ _ _ Hmp); exact Hq).
  cbn [fst] in Hg.
  assert (main_menu gk = 3) as Hmk
    by (unfold menu_part in Hmp; injection Hmp as -> _ _ _; exact Hm).
  destruct inps as [|inp2 inps].
  - exists {| globs := g; counter := counter ls + 1;
              last_main := main_menu g; last_sub := sub_menu g |}.
    eexists _, gk. cbn [run]. rewrite Ht. cbn [bind fst snd map taps globs].
    rewrite Hk. cbn [bind snd].
    split; [reflexivity|]. split; [reflexivity|].
    split; [exact Hg|]. rewrite Hg. exact Hmk.
  - destruct (IH {| globs := g; counter := counter ls + 1;
                    last_main := main_menu g; last_sub := sub_menu g |})
      as (ls' & log & g' & Hrun & Htaps & Hgl & Hm');
      [cbn [globs]; rewrite Hg; exact Hmk
      | cbn [globs]; rewrite Hg; unfold swipe_fires, is_vertical_swipe,
          is_horizontal_swipe; cbn [last_touch_x last_touch_y set_last_touch];
          rewrite !Z.sub_diag; reflexivity
      | discriminate
      | exact Hrest |].
    cbn [globs] in Htaps. rewrite Hg, taps_set_last_touch in Htaps.
    destruct (taps (touch_x t) (touch_y t) (map ticks_ms (inp2 :: inps)) gk)
      as [g2|e] eqn:E2; [|discriminate Htaps].
    cbn [bind] in Htaps. injection Htaps as <-.
    exists ls'. eexists _, g2.
    change (run true (inp :: inp2 :: inps) ls)
      with (r <- tick true inp ls ;;
            r' <- run true (inp2 :: inps) (fst r) ;;
            Ok (fst r', snd r ++ snd r')).
    rewrite Ht. cbn [bind fst snd]. rewrite Hrun. cbn [bind fst snd].
    split; [reflexivity|].
    change (map ticks_ms (inp :: inp2 :: inps))
      with (ticks_ms inp :: map ticks_ms (inp2 :: inps)).
    cbn [taps]. rewrite Hk. cbn [bind snd].
    split; [exact E2|]. split; [|exact Hm'].
    rewrite Hgl. reflexivity.
Qed.

(** Ten iterations, 100 ms apart, with the finger on the Backspace cell. *)
Definition hold_backspace : list tick_input :=
  map (fun i => mk_input (Some (mk_touch 50 180 1)) (100 * Z.of_nat i)
                  false false)
      (seq 0 10).

Lemma held_finger_repeats_taps_witness :
  exists ls' log,
    run true hold_backspace
      (mk_loop (set_search_text "abcdefghijkl" (set_menu 3 0 initial_globals))
         0 3 0)
      = Ok (ls', log) /\
    search_text (globs ls') = "ab".
Proof.
  destruct (held_finger_repeats_taps (mk_touch 50 180 1) hold_backspace
              (mk_loop (set_search_text "abcdefghijkl" (set_menu 3 0 initial_globals))
         0 3 0))
    as (ls' & log & g' & Hrun & Htaps & Hg & _).
  - reflexivity.
  - reflexivity.
  - discriminate.
  - repeat constructor.
  - exists ls', log. split; [exact Hrun|].
    vm_compute in Htaps. injection Htaps as <-.
    rewrite Hg. reflexivity.
Defined.

(** ** Drawing the search screen *)

Inductive color :=
| WHITE | GREY | BLACK | BLUE | YELLOW | RED | GREEN | ORANGE | DARK_BLUE.

(** Calls on [display]; [Text] is [display.text(font, s, x, y, c)]. *)
Inductive draw_cmd :=
| Text (s : string) (x y : Z) (c : color)
| Rect (x y w h : Z) (c : color)
| FillRect (x y w h : Z) (c : color)
| HLine (x y w : Z) (c : color)
| Line (x0 y0 x1 y1 : Z) (c : color)
| Pixel (x y : Z) (c : color).

(** [s[:n]] *)
Fixpoint str_prefix (n : nat) (s : string) : string :=
  match n, s with
  | S n', String c rest => String c (str_prefix n' rest)
  | _, _ => EmptyString
  end.

(** [s[n:]] *)
Fixpoint str_from (n : nat) (s : string) : string :=
  match n, s with
  | S n', String _ rest => str_from n' rest
  | _, _ => s
  end.

(** [search_text[-10:] if len(search_text) > 10 else search_text] *)
Definition display_text (search_text : string) : string :=
  if str_len search_text >? 10
  then str_from (String.length search_text - 10) search_text
  else search_text.

(** The body of the inner loop of [draw_search_screen] for one cell. *)
Definition draw_key (mode : string) (keys : list string)
           (row col x_pos y_pos : Z) : result (list draw_cmd) :=
  let idx := row * 3 + col in
  if idx =? 9 then
    Ok [Rect x_pos y_pos 60 30 RED; Text "DEL" (x_pos + 10) (y_pos + 5) RED]
  else if idx =? 10 then
    let mode_text := if negb (String.eqb mode "123") then mode else "123" in
    Ok [Rect x_pos y_pos 60 30 BLUE;
        Text (str_prefix 3 mode_text) (x_pos + 10) (y_pos + 5) BLUE]
  else if idx =? 11 then
    Ok [Rect x_pos y_pos 60 30 GREEN; Text "GO" (x_pos + 15) (y_pos + 5) GREEN]
  else if idx <? len keys then
    k <- list_index keys idx ;;
    Ok [Rect x_pos y_pos 60 30 GREY;
        Text (str_prefix 4 k) (x_pos + 5) (y_pos + 5) WHITE]
  else Ok [].

(** [for col in range(3)], with [x_pos] advanced by 70 after each cell. *)
Fixpoint draw_cols (mode : string) (keys : list string) (row : Z)
         (cols : list Z) (x_pos y_pos : Z) : result (list draw_cmd) :=
  match cols with
  | [] => Ok []
  | col :: rest =>
    a <- draw_key mode keys row col x_pos y_pos ;;
    b <- draw_cols mode keys row rest (x_pos + 70) y_pos ;;
    Ok (a ++ b)
  end.

(** [for row in range(4)], with [y_pos] advanced by 40 after each row. *)
Fixpoint draw_rows (mode : string) (keys : list string)
         (rows : list Z) (y_pos : Z) : result (list draw_cmd) :=
  match rows with
  | [] => Ok []
  | row :: rest =>
    a <- draw_cols mode keys row [0; 1; 2] 20 y_pos ;;
    b <- draw_rows mode keys rest (y_pos + 40) ;;
    Ok (a ++ b)
  end.

Definition draw_search_screen (g : globals) : result (list draw_cmd) :=
  let keys := dict_keys (current_keys g) in
  grid <- draw_rows (keyboard_mode g) keys [0; 1; 2; 3] 50 ;;
  Ok ([Text "SEARCH" (center_x "SEARCH" 16) 10 WHITE;
       Text (display_text (search_text g)) 20 30 YELLOW;
       HLine 20 45 200 GREY]
      ++ grid
      ++ [Text "^" (center_x "^" 16) 5 BLUE;
          Text "v" (center_x "v" 16) 220 BLUE]).

(** The grid drawn for a layout with the keys [k0 .. k8] under the letter
    cells. *)
Definition grid_of (mode : string) (ks : list string) : list draw_cmd :=
  concat
    (map (fun '(i, k) =>
            [Rect (20 + 70 * (i mod 3)) (50 + 40 * (i / 3)) 60 30 GREY;
             Text (str_prefix 4 k) (25 + 70 * (i mod 3)) (55 + 40 * (i / 3))
                  WHITE])
         (combine [0; 1; 2; 3; 4; 5; 6; 7; 8] ks))
  ++ [Rect 20 170 60 30 RED; Text "DEL" 30 175 RED;
      Rect 90 170 60 30 BLUE; Text (str_prefix 3 mode) 100 175 BLUE;
      Rect 160 170 60 30 GREEN; Text "GO" 175 175 GREEN].

Lemma mode_text_is_mode (mode : string) :
  (if negb (String.eqb mode "123") then mode else "123") = mode.
Proof.
  destruct (String.eqb_spec mode "123") as [->|_]; reflexivity.
Qed.

Lemma draw_rows_grid (g : globals) :
  draw_rows (keyboard_mode g) (dict_keys (current_keys g)) [0; 1; 2; 3] 50
  = Ok (grid_of (keyboard_mode g)
          (firstn 9 (dict_keys (current_keys g)))).
Proof.
  unfold current_keys.
  destruct (String.eqb (keyboard_mode g) "abc");
    [|destruct (String.eqb (keyboard_mode g) "ABC")];
    cbn; rewrite mode_text_is_mode; reflexivity.
Qed.

(** Finds the row and the column of a pixel known to lie in a band. *)
Ltac locate_cell px py :=
  let Hr := fresh "Hrow" in
  let Hc := fresh "Hcol" in
  first [ assert (row_of py = 0) as Hr by (apply (row_of_band py); lia)
        | assert (row_of py = 1) as Hr by (apply (row_of_band py); lia)
        | assert (row_of py = 2) as Hr by (apply (row_of_band py); lia)
        | assert (row_of py = 3) as Hr by (apply (row_of_band py); lia) ];
  first [ assert (col_of px = 0) as Hc by (apply (col_of_band px); lia)
        | assert (col_of px = 1) as Hc by (apply (col_of_band px); lia)
        | assert (col_of px = 2) as Hc by (apply (col_of_band px); lia) ].

(** What the buttons drawn by [draw_search_screen] do when tapped. *)
Definition button_action (g : globals) (cmds : list draw_cmd)
           (x y : Z) (c : color) (px py t : Z) : Prop :=
  match c with
  | RED =>
    handle_keyboard_touch px py t g
    = Ok (true, set_multitap_key None (remove_last_char g))
  | BLUE =>
    exists g',
      handle_keyboard_touch px py t g = Ok (true, g') /\
      keyboard_mode g' <> keyboard_mode g /\
      search_text g' = search_text g
  | GREEN =>
    handle_keyboard_touch px py t g = Ok (true, set_multitap_key None g)
  | GREY =>
    exists k,
      In (Text (str_prefix 4 k) (x + 5) (y + 5) WHITE) cmds /\
      row_of py <= 2 /\
      list_index (dict_keys (current_keys g)) (row_of py * 3 + col_of px)
      = Ok k
  | _ => False
  end.

Lemma mode_toggle_changes_mode (g : globals) :
  (if String.eqb (keyboard_mode g) "abc" then "ABC"
   else if String.eqb (keyboard_mode g) "ABC" then "123" else "abc")
  <> keyboard_mode g.
Proof.
  destruct (String.eqb_spec (keyboard_mode g) "abc") as [E|E];
    [rewrite E; discriminate|].
  destruct (String.eqb_spec (keyboard_mode g) "ABC") as [E'|E'];
    [rewrite E'; discriminate|].
  congruence.
Qed.

Ltac solve_button g px py :=
  locate_cell px py;
  cbn [button_action];
  repeat match goal with
         | H : row_of py = _ |- _ => rewrite !H
         | H : col_of px = _ |- _ => rewrite !H
         | H : current_keys g = _ |- _ => rewrite !H
         end;
  repeat (split; [first [reflexivity | lia]|]);
  first
    [ apply tap_backspace; assumption
    | apply tap_search_button; assumption
    | eexists; split; [apply tap_mode_toggle; assumption|];
      split; [apply mode_toggle_changes_mode|reflexivity]
    | eexists; (split; [|split; [lia|reflexivity]]);
      cbn; repeat (first [left; reflexivity | right]) ].

(** X16.  The search screen is drawn as it is tapped.  [draw_search_screen]
    always returns.  Every pixel inside a rectangle it draws resolves, in
    [handle_keyboard_touch], to the cell whose rectangle that is: inside the
    red one a tap is Backspace, inside the blue one it changes the keyboard
    mode and nothing of the buffer, inside the green one it is the search
    button, and inside a grey one the key under the tap is the key whose
    name (cut to four characters) is drawn as that rectangle's label.
    Conversely, every pixel the keyboard accepts belongs to a cell whose
    rectangle is drawn, and lies in it or on the pixel line just beyond its
    right or lower edge. *)
Theorem drawn_buttons_match_taps (g : globals) :
  exists cmds,
    draw_search_screen g = Ok cmds /\
    (forall x y w h c px py t,
       In (Rect x y w h c) cmds ->
       x <= px < x + w ->
       y <= py < y + h ->
       0 <= row_of py /\ 0 <= col_of px /\
       x = 20 + 70 * col_of px /\ y = 50 + 40 * row_of py /\
       w = 60 /\ h = 30 /\
       button_action g cmds x y c px py t) /\
    (forall px py,
       0 <= row_of py -> 0 <= col_of px ->
       exists c,
         In (Rect (20 + 70 * col_of px) (50 + 40 * row_of py) 60 30 c) cmds /\
         20 + 70 * col_of px <= px <= 20 + 70 * col_of px + 60 /\
         50 + 40 * row_of py <= py <= 50 + 40 * row_of py + 30).
Proof.
  unfold draw_search_screen. rewrite draw_rows_grid. cbn [bind].
  eexists. split; [reflexivity|].
  assert (current_keys g = multitap_letters
          \/ current_keys g = multitap_letters_upper
          \/ current_keys g = multitap_numbers) as Hkeys.
  { unfold current_keys.
    destruct (String.eqb (keyboard_mode g) "abc"); [auto|].
    destruct (String.eqb (keyboard_mode g) "ABC"); auto. }
  split.
  - intros x y w h c px py t Hin Hx Hy.
    destruct Hkeys as [Hk|[Hk|Hk]]; rewrite Hk in *;
      cbn in Hin;
      repeat (destruct Hin as [Hin|Hin];
              [try discriminate Hin;
               try (injection Hin as <- <- <- <- <-; solve_button g px py)|]);
      contradiction.
  - intros px py Hr Hc.
    pose proof (row_of_range py) as Hr'. pose proof (col_of_range px) as Hc'.
    assert (exists c,
              In (Rect (20 + 70 * col_of px) (50 + 40 * row_of py) 60 30 c)
                 (grid_of (keyboard_mode g)
                    (firstn 9 (dict_keys (current_keys g))))) as [c Hc0].
    { assert (row_of py = 0 \/ row_of py = 1 \/ row_of py = 2 \/ row_of py = 3)
        as Hrc by lia.
      assert (col_of px = 0 \/ col_of px = 1 \/ col_of px = 2) as Hcc by lia.
      destruct Hkeys as [Hk|[Hk|Hk]]; rewrite Hk;
        destruct Hrc as [E|[E|[E|E]]]; rewrite E;
        destruct Hcc as [F|[F|F]]; rewrite F;
        eexists; cbn; repeat (first [left; reflexivity | right]). }
    exists c. split.
    + apply in_or_app. right. apply in_or_app. left. exact Hc0.
    + destruct (row_of_cases py) as [H|[H|[H|[H|H]]]];
        destruct (col_of_cases px) as [H'|[H'|[H'|H']]]; lia.
Qed.

Lemma length_app_string (p q : string) :
  String.length (p ++ q) = (String.length p + String.length q)%nat.
Proof.
  induction p as [|c p IH]; [reflexivity|].
  cbn [String.append String.length]. rewrite IH. reflexivity.
Qed.

Lemma str_from_split (n : nat) :
  forall s, (n <= String.length s)%nat ->
  exists p, s = (p ++ str_from n s)%string /\ String.length p = n.
Proof.
  induction n as [|n IH]; intros s Hn.
  - exists EmptyString. destruct s; split; reflexivity.
  - destruct s as [|c s]; [cbn in Hn; lia|].
    destruct (IH s) as (p & Hp & Hl); [cbn in Hn; lia|].
    exists (String c p). cbn [str_from String.append String.length].
    split; [rewrite <- Hp; reflexivity|rewrite Hl; reflexivity].
Qed.

(** X17.  [draw_search_screen] shows the buffer cut to its last ten
    characters: what it draws at (20, 30) is a suffix of the buffer, the
    whole buffer when that has at most ten characters and exactly ten
    characters otherwise, so that at 16 pixels a character the text ends by
    x = 180, inside the underline that runs from 20 to 220. *)
Theorem search_screen_shows_buffer_tail (g : globals) :
  exists cmds shown,
    draw_search_screen g = Ok cmds /\
    In (Text shown 20 30 YELLOW) cmds /\
    In (HLine 20 45 200 GREY) cmds /\
    (exists p, search_text g = (p ++ shown)%string) /\
    (str_len (search_text g) <= 10 -> shown = search_text g) /\
    (str_len (search_text g) > 10 -> str_len shown = 10) /\
    20 + 16 * str_len shown <= 180.
Proof.
  unfold draw_search_screen. rewrite draw_rows_grid. cbn [bind].
  eexists _, (display_text (search_text g)).
  split; [reflexivity|].
  split; [right; left; reflexivity|].
  split; [right; right; left; reflexivity|].
  unfold display_text, str_len.
  destruct (Z.gtb_spec (Z.of_nat (String.length (search_text g))) 10) as [H|H].
  - destruct (str_from_split (String.length (search_text g) - 10)
                (search_text g)) as (p & Hp & Hl); [lia|].
    assert (String.length
              (str_from (String.length (search_text g) - 10) (search_text g))
            = 10%nat) as Hlen.
    { pose proof (f_equal String.length Hp) as E.
      rewrite length_app_string in E. lia. }
    split; [exists p; exact Hp|].
    split; [lia|]. rewrite Hlen. split; [reflexivity|lia].
  - split; [exists EmptyString; reflexivity|].
    split; [reflexivity|]. split; lia.
Qed.

(** ** Connecting to WiFi *)

(** What [connect_wifi] does to the outside world. *)
Inductive wifi_effect :=
| WifiDraw (cmd : option draw_cmd)       (* [None]: display.fill(BLACK) *)
| WlanCreate                             (* network.WLAN(network.STA_IF) *)
| WlanActive (on : bool)                 (* wlan.active(on) *)
| WlanConnect (ssid key : string)        (* wlan.connect(ssid, key) *)
| IsConnected (answer : bool)            (* wlan.isconnected() *)
| WifiSleep (ms : Z).                    (* time.sleep(0.5) is 500 *)

(** The [while not wlan.isconnected() and timeout > 0] loop.  [conn i] is
    the answer of the [i]-th call of [wlan.isconnected()], [i] the number of
    calls made so far; the result is the number of calls made after the
    loop, with the loop's effects.  [timeout] counts down from 20. *)
Fixpoint wifi_wait (timeout : nat) (conn : nat -> bool) (i : nat)
  : nat * list wifi_effect :=
  if conn i then (S i, [IsConnected true])
  else
    match timeout with
    | O => (S i, [IsConnected false])
    | S timeout' =>
      let r := wifi_wait timeout' conn (S i) in
      (fst r, IsConnected false :: WifiSleep 500 :: snd r)
    end.

Definition connect_wifi (conn : nat -> bool) : bool * list wifi_effect :=
  let r := wifi_wait 20 conn 0 in
  (conn (fst r),
   [WifiDraw None;
    WifiDraw (Some (Text "WiFi..." (center_x "WiFi..." 16) 110 WHITE));
    WlanCreate; WlanActive true; WlanConnect "SKYF30B4" "PWCSDPFU"]
   ++ snd r ++ [IsConnected (conn (fst r))]).

Definition wifi_duration (e : wifi_effect) : Z :=
  match e with
  | WifiSleep ms => ms
  | _ => 0
  end.

Definition wifi_elapsed (es : list wifi_effect) : Z :=
  fold_right (fun e acc => wifi_duration e + acc) 0 es.

Lemma wifi_elapsed_app (a b : list wifi_effect) :
  wifi_elapsed (a ++ b) = wifi_elapsed a + wifi_elapsed b.
Proof.
  induction a as [|e a IH]; [reflexivity|].
  cbn [app wifi_elapsed fold_right] in *. fold (wifi_elapsed (a ++ b)).
  fold (wifi_elapsed a). rewrite IH. lia.
Qed.

Lemma wifi_wait_spec (timeout : nat) (conn : nat -> bool) :
  forall i,
    0 <= wifi_elapsed (snd (wifi_wait timeout conn i))
      <= 500 * Z.of_nat timeout /\
    (forall k, (k <= timeout)%nat ->
       conn (i + k)%nat = true ->
       (forall j, (j < k)%nat -> conn (i + j)%nat = false) ->
       wifi_elapsed (snd (wifi_wait timeout conn i)) = 500 * Z.of_nat k /\
       fst (wifi_wait timeout conn i) = S (i + k)) /\
    ((forall j, (j <= timeout)%nat -> conn (i + j)%nat = false) ->
     wifi_elapsed (snd (wifi_wait timeout conn i)) = 500 * Z.of_nat timeout /\
     fst (wifi_wait timeout conn i) = S (i + timeout)).
Proof.
  induction timeout as [|n IH]; intros i.
  - cbn [wifi_wait]. split; [destruct (conn i); cbn; lia|]. split.
    + intros k Hk Hc _. assert (k = 0)%nat as -> by lia.
      rewrite Nat.add_0_r in *. rewrite Hc. split; reflexivity.
    + intros Hn. rewrite <- (Nat.add_0_r i) at 1 2.
      rewrite (Hn 0%nat) by lia. rewrite Nat.add_0_r. split; reflexivity.
  - destruct (IH (S i)) as (Hb & Hfound & Hnever).
    cbn [wifi_wait]. destruct (conn i) eqn:Ci.
    + split; [cbn; lia|]. split.
      * intros k Hk Hc Hbefore.
        destruct k as [|k].
        -- rewrite Nat.add_0_r. split; reflexivity.
        -- specialize (Hbefore 0%nat ltac:(lia)).
           rewrite Nat.add_0_r in Hbefore. congruence.
      * intros Hn. specialize (Hn 0%nat ltac:(lia)).
        rewrite Nat.add_0_r in Hn. congruence.
    + cbn [fst snd wifi_elapsed fold_right wifi_duration].
      fold (wifi_elapsed (snd (wifi_wait n conn (S i)))).
      split; [lia|]. split.
      * intros k Hk Hc Hbefore.
        destruct k as [|k]; [rewrite Nat.add_0_r in Hc; congruence|].
        destruct (Hfound k) as [He Hf]; [lia| | |].
        -- rewrite <- Hc. f_equal. lia.
        -- intros j Hj. rewrite <- (Hbefore (S j)) by lia. f_equal. lia.
        -- rewrite He, Hf. split; lia.
      * intros Hn.
        destruct Hnever as [He Hf].
        -- intros j Hj. rewrite <- (Hn (S j)) by lia. f_equal. lia.
        -- rewrite He, Hf. split; lia.
Qed.

(** X18.  [connect_wifi] cannot hang: it sleeps 500 ms at a time, at most 20
    times, so at most 10 s in all.  If the link is first seen up at the
    [k]-th poll ([k] from 0 to 20) it has slept exactly [500 * k] ms, and if
    the link is down at all 21 polls it has slept the full 10 s.  In both
    cases what it returns is the answer of one more [isconnected()] call
    made after the loop, not what the loop saw. *)
Theorem connect_wifi_waits_at_most_10s (conn : nat -> bool) :
  0 <= wifi_elapsed (snd (connect_wifi conn)) <= 10000 /\
  (forall k, (k <= 20)%nat ->
     conn k = true ->
     (forall j, (j < k)%nat -> conn j = false) ->
     wifi_elapsed (snd (connect_wifi conn)) = 500 * Z.of_nat k /\
     fst (connect_wifi conn) = conn (S k)) /\
  ((forall j, (j <= 20)%nat -> conn j = false) ->
   wifi_elapsed (snd (connect_wifi conn)) = 10000 /\
   fst (connect_wifi conn) = conn 21%nat).
Proof.
  destruct (wifi_wait_spec 20 conn 0) as (Hb & Hfound & Hnever).
  assert (wifi_elapsed (snd (connect_wifi conn))
          = wifi_elapsed (snd (wifi_wait 20 conn 0))) as Hel.
  { unfold connect_wifi. cbn [snd].
    rewrite !wifi_elapsed_app. cbn [wifi_elapsed fold_right wifi_duration].
    fold (wifi_elapsed (snd (wifi_wait 20 conn 0))). lia. }
  rewrite Hel. change (fst (connect_wifi conn))
    with (conn (fst (wifi_wait 20 conn 0))).
  split; [lia|]. split.
  - intros k Hk Hc Hbefore.
    destruct (Hfound k Hk Hc Hbefore) as [He Hf]. rewrite He, Hf.
    split; reflexivity.
  - intros Hn. destruct (Hnever Hn) as [He Hf]. rewrite He, Hf.
    split; reflexivity.
Qed.

Lemma connect_wifi_waits_at_most_10s_witness :
  wifi_elapsed (snd (connect_wifi (fun i => (3 <=? i)%nat))) = 1500 /\
  fst (connect_wifi (fun i => (3 <=? i)%nat)) = true.
Proof.
  destruct (connect_wifi_waits_at_most_10s (fun i => (3 <=? i)%nat))
    as (_ & Hfound & _).
  destruct (Hfound 3%nat) as [He Hr].
  - lia.
  - reflexivity.
  - intros j Hj. apply Nat.leb_gt. lia.
  - split; [exact He|exact Hr].
Defined.

(** ** Weather codes: description and icon *)

(** The [descriptions] dictionary of [get_weather]. *)
Definition descriptions : list (Z * string) :=
  [ (0, "Clear"); (1, "Mostly Clear"); (2, "Partly Cloudy"); (3, "Cloudy");
    (45, "Foggy"); (48, "Foggy"); (51, "Light Rain"); (53, "Rain");
    (55, "Heavy Rain"); (61, "Light Rain"); (63, "Rain"); (65, "Heavy Rain");
    (71, "Light Snow"); (73, "Snow"); (75, "Heavy Snow"); (80, "Showers");
    (81, "Showers"); (82, "Heavy Showers"); (95, "Thunderstorm") ].

(** [d.get(key, default)] *)
Fixpoint dict_get_default (d : list (Z * string)) (key : Z) (default : string)
  : string :=
  match d with
  | [] => default
  | (k, v) :: rest => if k =? key then v else dict_get_default rest key default
  end.

(** [desc = descriptions.get(weather_code, "Unknown")] *)
Definition weather_description (weather_code : Z) : string :=
  dict_get_default descriptions weather_code "Unknown".

(** [code in l] *)
Definition code_in (code : Z) (l : list Z) : bool := existsb (Z.eqb code) l.

Definition draw_weather_icon (x y code : Z) : list draw_cmd :=
  if code_in code [0; 1] then
    [ FillRect (x - 8) (y - 8) 16 16 YELLOW;
      Line x (y - 18) x (y - 12) YELLOW;
      Line x (y + 12) x (y + 18) YELLOW;
      Line (x - 18) y (x - 12) y YELLOW;
      Line (x + 12) y (x + 18) y YELLOW;
      Line (x - 13) (y - 13) (x - 9) (y - 9) YELLOW;
      Line (x + 9) (y - 9) (x + 13) (y - 13) YELLOW;
      Line (x - 13) (y + 9) (x - 9) (y + 13) YELLOW;
      Line (x + 9) (y + 9) (x + 13) (y + 13) YELLOW ]
  else if code_in code [2] then
    [ FillRect (x - 18) (y - 10) 10 10 YELLOW;
      FillRect (x - 5) y 20 10 GREY;
      FillRect x (y - 5) 15 10 GREY ]
  else if code_in code [3; 45; 48] then
    [ FillRect (x - 15) y 20 10 GREY;
      FillRect (x - 5) (y - 5) 15 10 GREY;
      FillRect (x + 5) y 15 10 GREY ]
  else if code_in code [51; 53; 55; 61; 63; 65; 80; 81; 82] then
    [ FillRect (x - 15) (y - 10) 20 10 GREY;
      FillRect (x - 5) (y - 15) 15 10 GREY;
      Line (x - 10) (y + 3) (x - 10) (y + 10) BLUE;
      Line (x - 3) (y + 5) (x - 3) (y + 12) BLUE;
      Line (x + 4) (y + 3) (x + 4) (y + 10) BLUE;
      Line (x + 11) (y + 5) (x + 11) (y + 12) BLUE ]
  else if code_in code [71; 73; 75] then
    [ FillRect (x - 15) (y - 10) 20 10 GREY;
      FillRect (x - 5) (y - 15) 15 10 GREY ]
    ++ flat_map (fun sx =>
                   let sy := y + 6 in
                   [ Pixel (sx + x) sy WHITE;
                     Pixel (sx + x - 1) sy WHITE;
                     Pixel (sx + x + 1) sy WHITE;
                     Pixel (sx + x) (sy - 1) WHITE;
                     Pixel (sx + x) (sy + 1) WHITE ])
                [-10; -2; 6]
  else if code_in code [95; 96; 99] then
    [ FillRect (x - 15) (y - 10) 20 10 DARK_BLUE;
      FillRect (x - 5) (y - 15) 15 10 DARK_BLUE;
      Line x y (x - 3) (y + 6) YELLOW;
      Line (x - 3) (y + 6) (x + 2) (y + 6) YELLOW;
      Line (x + 2) (y + 6) (x - 1) (y + 12) YELLOW ]
  else [].

(** The codes [get_weather] has a description for. *)
Lemma described_codes (code : Z) :
  weather_description code <> "Unknown" ->
  In code [0; 1; 2; 3; 45; 48; 51; 53; 55; 61; 63; 65; 71; 73; 75; 80; 81;
           82; 95].
Proof.
  unfold weather_description, descriptions. cbn [dict_get_default].
  repeat match goal with
         | |- context [?k =? code] =>
           destruct (Z.eqb_spec k code) as [<-|?]; [intros _; cbn; tauto|]
         end.
  congruence.
Qed.

(** The codes [draw_weather_icon] draws something for. *)
Lemma icon_codes (x y code : Z) :
  draw_weather_icon x y code <> [] <->
  In code [0; 1; 2; 3; 45; 48; 51; 53; 55; 61; 63; 65; 80; 81; 82; 71; 73;
           75; 95; 96; 99].
Proof.
  unfold draw_weather_icon, code_in. cbn [existsb].
  split.
  - repeat match goal with
           | |- context [code =? ?k] =>
             destruct (Z.eqb_spec code k) as [->|?]; [intros _; cbn; tauto|]
           end.
    cbn. congruence.
  - intros Hin. cbn in Hin.
    repeat (destruct Hin as [<-|Hin]; [cbn; discriminate|]).
    contradiction.
Qed.

(** X19.  Description and icon agree.  Every weather code that [get_weather]
    describes (with something other than "Unknown") gets an icon from
    [draw_weather_icon], and two described codes with the same description
    get the same icon.  The only codes that get an icon while their
    description is "Unknown" are 96 and 99, drawn as thunderstorms. *)
Theorem weather_icon_matches_description (x y : Z) :
  (forall code,
     weather_description code <> "Unknown" ->
     draw_weather_icon x y code <> []) /\
  (forall c1 c2,
     weather_description c1 <> "Unknown" ->
     weather_description c1 = weather_description c2 ->
     draw_weather_icon x y c1 = draw_weather_icon x y c2) /\
  (forall code,
     weather_description code = "Unknown" /\ draw_weather_icon x y code <> []
     <-> code = 96 \/ code = 99) /\
  draw_weather_icon x y 96 = draw_weather_icon x y 95.
Proof.
  split; [|split; [|split; [|reflexivity]]].
  - intros code Hd. apply icon_codes. apply described_codes in Hd.
    cbn in Hd. cbn. tauto.
  - intros c1 c2 Hd Heq.
    assert (weather_description c2 <> "Unknown") as Hd2 by congruence.
    apply described_codes in Hd. apply described_codes in Hd2.
    cbn in Hd, Hd2.
    repeat (destruct Hd as [<-|Hd];
            [repeat (destruct Hd2 as [<-|Hd2];
                     [first [reflexivity | discriminate Heq]|]);
             contradiction|]).
    contradiction.
  - intros code. split.
    + intros [Hu Hi]. apply icon_codes in Hi. cbn in Hi.
      repeat (destruct Hi as [<-|Hi];
              [first [discriminate Hu | tauto]|]).
      contradiction.
    + intros [->| ->]; split; (reflexivity || (cbn; discriminate)).
Qed.

(** ** Which screen is drawn *)

(** The drawing function [draw_screen] calls. *)
Inductive screen :=
| draw_time_screen
| draw_weather_main
| draw_weather_details
| draw_crypto_screen
| draw_search_screen_call
| draw_settings_screen.

Definition draw_screen (g : globals) : screen :=
  if main_menu g =? 0 then draw_time_screen
  else if main_menu g =? 1 then
    if sub_menu g =? 0 then draw_weather_main else draw_weather_details
  else if main_menu g =? 2 then draw_crypto_screen
  else if main_menu g =? 3 then draw_search_screen_call
  else draw_settings_screen.

(** X20.  After every call of any sequence of swipe-detector and keyboard
    calls from the start-up globals, the two catch-all [else] branches of
    [draw_screen] stand for exactly one position each: the settings screen
    is drawn exactly at [main_menu = 4], and the weather details exactly at
    [main_menu = 1], [sub_menu = 1]. *)
Theorem draw_screen_else_branches (cs : list call) :
  exists gs,
    states_after cs initial_globals = Ok gs /\
    Forall (fun g =>
              (draw_screen g = draw_settings_screen <-> main_menu g = 4) /\
              (draw_screen g = draw_weather_details <->
               main_menu g = 1 /\ sub_menu g = 1)) gs.
Proof.
  destruct (states_after_invariant cs initial_globals initial_menu_invariant)
    as (gs & H & _ & Hinv).
  exists gs. split; [exact H|].
  eapply Forall_impl; [|exact Hinv].
  intros g [Hm Hs]. unfold draw_screen, get_max_submenus in *.
  destruct (Z.eqb_spec (main_menu g) 0); [split; split; (discriminate || lia)|].
  destruct (Z.eqb_spec (main_menu g) 1).
  - destruct (Z.eqb_spec (sub_menu g) 0);
      split; split; try discriminate; try lia; auto.
  - destruct (Z.eqb_spec (main_menu g) 2);
      [split; split; (discriminate || lia)|].
    destruct (Z.eqb_spec (main_menu g) 3);
      [split; split; (discriminate || lia)|].
    split; split; try discriminate; try lia; auto.
Qed.

(** ** Swiping down several times *)

(** [n] times: put the finger down at [a], move it to [b]. *)
Fixpoint strokes (n : nat) (a b : touch_data) : list (option touch_data) :=
  match n with
  | O => []
  | S n' => Some a :: Some b :: strokes n' a b
  end.

Lemma feed_elapsed_cons (td : option touch_data) (rest : list (option touch_data))
      (g : globals) :
  feed (td :: rest) g =
    (fst (feed rest (fst (detect_swipe td g))),
     snd (detect_swipe td g) ++ snd (feed rest (fst (detect_swipe td g)))).
Proof. reflexivity. Qed.

(** X21.  Vertical swipes add up modulo 5.  With no anchor set and
    [main_menu] in 0..4, [n] downward strokes (each a contact at [a]
    followed by a contact at [b] more than 50 lower and less far sideways)
    leave [main_menu] at [(main_menu + n) mod 5], [sub_menu] at 0 once
    [n > 0], no anchor, and cost [n] sleeps of 300 ms; so five strokes come
    back to the starting screen and every main screen can be reached. *)
Theorem down_strokes_add_up (a b : touch_data) (n : nat) :
  touch_y b - touch_y a > 50 ->
  touch_y b - touch_y a > Z.abs (touch_x b - touch_x a) ->
  forall g,
    last_touch_x g = None ->
    0 <= main_menu g < 5 ->
    let r := feed (strokes n a b) g in
    main_menu (fst r) = (main_menu g + Z.of_nat n) mod 5 /\
    (n <> O -> sub_menu (fst r) = 0) /\
    last_touch_x (fst r) = None /\
    elapsed (snd r) = 300 * Z.of_nat n /\
    text_part (fst r) = text_part g.
Proof.
  intros Hdy Hdom.
  assert (is_vertical_swipe (touch_x b - touch_x a) (touch_y b - touch_y a)
          = true) as V by (apply is_vertical_swipe_spec; lia).
  induction n as [|n IH]; intros g Hx Hm; cbv zeta.
  - cbn [strokes feed fst snd]. rewrite Z.add_0_r, Z.mod_small by lia.
    repeat split; auto. congruence.
  - cbn [strokes]. rewrite !feed_elapsed_cons.
    rewrite (detect_swipe_anchor a g Hx). cbn [fst snd app].
    rewrite (detect_swipe_vertical b _ (touch_x a) (touch_y a))
      by (try reflexivity; exact V).
    cbn [fst snd app].
    destruct (Z.gtb_spec (touch_y b - touch_y a) 0); [|lia].
    set (g1 := set_last_touch None None
                 (set_menu ((main_menu
                               (set_last_touch (Some (touch_x a))
                                  (Some (touch_y a)) g) + 1) mod 5) 0
                    (set_last_touch (Some (touch_x a)) (Some (touch_y a)) g))).
    destruct (IH g1) as (Hmain & Hsub & Hanchor & Hel & Htext);
      [reflexivity|apply Z.mod_pos_bound; lia|].
    cbv zeta in Hmain, Hsub, Hanchor, Hel, Htext.
    split.
    { rewrite Hmain. subst g1. cbn [main_menu set_last_touch set_menu].
      rewrite Z.add_mod_idemp_l by lia. f_equal. lia. }
    split.
    { intros _. destruct n as [|n']; [reflexivity|].
      apply Hsub. discriminate. }
    split; [exact Hanchor|].
    split.
    { cbn [elapsed fold_right duration].
      fold (elapsed (snd (feed (strokes n a b) g1))). rewrite Hel. lia. }
    rewrite Htext. reflexivity.
Qed.

Lemma down_strokes_add_up_witness :
  main_menu (fst (feed (strokes 5 (mk_touch 120 40 1) (mk_touch 130 100 1))
                    initial_globals)) = 0 /\
  main_menu (fst (feed (strokes 3 (mk_touch 120 40 1) (mk_touch 130 100 1))
                    initial_globals)) = 3.
Proof.
  split.
  - apply (down_strokes_add_up (mk_touch 120 40 1) (mk_touch 130 100 1) 5);
      try reflexivity; cbn; lia.
  - apply (down_strokes_add_up (mk_touch 120 40 1) (mk_touch 130 100 1) 3);
      try reflexivity; cbn; lia.
Defined.
